(** * FluxIndex: scripts/convert_to_onnx.py

    A shallow embedding of the cross-encoder to ONNX conversion script and
    the properties its specification states about it.

    The script is orchestration around external libraries (transformers,
    torch, onnxruntime) and the operating system.  The embedding keeps the
    script's control flow statement by statement and takes the libraries as
    an environment of oracles that may return a value or raise:

    - Python exceptions are values of [Exn] carrying their class; [except C]
      is a test on the class (Python matches handlers by class, wherever in
      the [try] body the exception was raised);
    - the process state is a [World]: a file system (a finite map from paths
      to nodes), the lines printed on standard output and a ghost trace of
      the library calls made;
    - procedures live in a state-and-exception monad [M]: effects performed
      before an exception is raised are kept.

    Paths follow [posixpath]; they are used as written (no normalisation of
    [.], [..] or repeated separators). *)

From stdpp Require Import gmap strings list fin_maps pretty.

Open Scope string_scope.
Open Scope Z_scope.

(** ** Exceptions *)

Inductive ExnClass :=
| SystemExit (code : Z)
| KeyboardInterrupt
| ImportError
| ModuleNotFoundError
| OSError
| FileNotFoundError
| FileExistsError
| NotADirectoryError
| PermissionError
| KeyError
| IndexError
| RuntimeError
| ValueError.

Record Exn := mkExn { exn_class : ExnClass; exn_msg : string }.

(** [isinstance(e, ImportError)]: ModuleNotFoundError derives from it. *)
Definition isinstance_ImportError (e : Exn) : bool :=
  match exn_class e with
  | ImportError | ModuleNotFoundError => true
  | _ => false
  end.

(** [isinstance(e, OSError)]. *)
Definition isinstance_OSError (e : Exn) : bool :=
  match exn_class e with
  | OSError | FileNotFoundError | FileExistsError
  | NotADirectoryError | PermissionError => true
  | _ => false
  end.

Definition isinstance_FileExistsError (e : Exn) : bool :=
  match exn_class e with
  | FileExistsError => true
  | _ => false
  end.

(** [isinstance(e, Exception)]: everything but the two classes that derive
    from BaseException directly. *)
Definition isinstance_Exception (e : Exn) : bool :=
  match exn_class e with
  | SystemExit _ | KeyboardInterrupt => false
  | _ => true
  end.

(** ** Values handled by the script *)

(** A tensor (or the numpy array made from it): its shape and its entries,
    which the script never inspects. *)
Record Tensor := mkTensor { shape : list Z; entries : list Z }.

Definition numpy (t : Tensor) : Tensor := t.

Record Tokenizer := mkTokenizer { tok_name : string }.

Record Model := mkModel {
  hub_name : string;
  num_labels : Z;          (* model.config.num_labels *)
  training : bool
}.

(** [model.eval()] *)
Definition eval (m : Model) : Model :=
  {| hub_name := hub_name m; num_labels := num_labels m; training := false |}.

Record Session := mkSession { sess_path : string }.

(** The arguments of the [torch.onnx.export] call. *)
Record ExportRequest := mkExportRequest {
  exp_model : Model;
  exp_args : Tensor * Tensor * Tensor;
  exp_path : string;
  exp_export_params : bool;
  exp_opset_version : Z;
  exp_input_names : list string;
  exp_output_names : list string;
  exp_dynamic_axes : gmap string (gmap Z string)
}.

(** ** File system, standard output, call trace *)

(** What a file holds: bytes the script knows nothing about, or a graph
    written by the exporter, which records the interface it was asked to
    declare. *)
Inductive Content :=
| Blob (bytes : string)
| OnnxGraph (req : ExportRequest).

Inductive Node :=
| Dir
| File (c : Content).

Inductive Call :=
| CallConvert (model_name output_path : string) (max_length opset_version : Z)
| CallTokenizerFromPretrained (model_name : string)
| CallModelFromPretrained (model_name : string)
| CallTokenizer (max_length : Z)
| CallOnnxExport (output_path : string)
| CallImport (module : string)
| CallInferenceSession (path : string)
| CallSessionRun (path : string).

Record World := mkWorld {
  fs : gmap string Node;
  stdout : list string;
  calls : list Call
}.

Definition with_fs (f : gmap string Node) (w : World) : World :=
  {| fs := f; stdout := stdout w; calls := calls w |}.

Definition emit (line : string) (w : World) : World :=
  {| fs := fs w; stdout := stdout w ++ [line]; calls := calls w |}.

Definition note (c : Call) (w : World) : World :=
  {| fs := fs w; stdout := stdout w; calls := calls w ++ [c] |}.

(** ** The state-and-exception monad *)

Inductive result (A : Type) :=
| Ok (a : A)
| Raise (e : Exn).
Arguments Ok {A} a.
Arguments Raise {A} e.

Definition M (A : Type) : Type := World -> result A * World.

Definition ret {A} (a : A) : M A := fun w => (Ok a, w).

Definition raise {A} (e : Exn) : M A := fun w => (Raise e, w).

Definition bind {A B} (m : M A) (k : A -> M B) : M B :=
  fun w =>
    match m w with
    | (Ok a, w') => k a w'
    | (Raise e, w') => (Raise e, w')
    end.

Declare Scope py_scope.
Delimit Scope py_scope with py.
Notation "'let*' x ':=' m 'in' k" := (bind m (fun x => k))
  (at level 10, x name, m at level 99, k at level 200) : py_scope.
Notation "m ';;' k" := (bind m (fun _ => k))
  (at level 100, k at level 200, right associativity) : py_scope.
Open Scope py_scope.

(** [try: body / except C as e: handler e], with [catches] the test
    [isinstance(e, C)]. *)
Definition try_except {A} (body : M A) (catches : Exn -> bool)
    (handler : Exn -> M A) : M A :=
  fun w =>
    match body w with
    | (Ok a, w') => (Ok a, w')
    | (Raise e, w') => if catches e then handler e w' else (Raise e, w')
    end.

(** [print(line)] *)
Definition print (line : string) : M unit := fun w => (Ok tt, emit line w).

(** A call to a library routine: noted in the trace, answered by the oracle
    from the world as it is when the call is made. *)
Definition call {A} (c : Call) (oracle : World -> result A) : M A :=
  fun w => (oracle w, note c w).

(** [d[key]] on a dict *)
Definition getitem {V} (d : gmap string V) (key : string) : M V :=
  match d !! key with
  | Some v => ret v
  | None => raise (mkExn KeyError ("'" +:+ key +:+ "'"))
  end.

(** [l[i]] on a list, for an index that is not negative *)
Definition list_getitem {V} (l : list V) (i : nat) : M V :=
  match l !! i with
  | Some v => ret v
  | None => raise (mkExn IndexError "list index out of range")
  end.

(** ** posixpath and os *)

Definition sep : Ascii.ascii := Ascii.ascii_of_nat 47.   (* '/' *)

Definition is_sep (c : Ascii.ascii) : bool := Ascii.eqb c sep.

Fixpoint has_sep (p : string) : bool :=
  match p with
  | EmptyString => false
  | String c r => is_sep c || has_sep r
  end.

Fixpoint all_seps (p : string) : bool :=
  match p with
  | EmptyString => true
  | String c r => is_sep c && all_seps r
  end.

Definition nonempty (p : string) : bool :=
  match p with
  | EmptyString => false
  | String _ _ => true
  end.

(** [(p[:i], p[i:])] for [i = p.rfind('/') + 1] *)
Fixpoint cut_after_last_sep (p : string) : string * string :=
  match p with
  | EmptyString => (EmptyString, EmptyString)
  | String c r =>
      if has_sep r then
        let (h, t) := cut_after_last_sep r in (String c h, t)
      else if is_sep c then (String c EmptyString, r)
      else (EmptyString, String c r)
  end.

(** [s.rstrip('/')] *)
Fixpoint rstrip_sep (s : string) : string :=
  match s with
  | EmptyString => EmptyString
  | String c r =>
      match rstrip_sep r with
      | EmptyString => if is_sep c then EmptyString else String c EmptyString
      | r' => String c r'
      end
  end.

(** [posixpath.split] *)
Definition os_path_split (p : string) : string * string :=
  let (head, tail) := cut_after_last_sep p in
  let head :=
    if nonempty head && negb (all_seps head) then rstrip_sep head else head in
  (head, tail).

(** [posixpath.dirname] *)
Definition os_path_dirname (p : string) : string := fst (os_path_split p).

Fixpoint ends_with_sep (p : string) : bool :=
  match p with
  | EmptyString => false
  | String c EmptyString => is_sep c
  | String _ r => ends_with_sep r
  end.

Definition starts_with_sep (p : string) : bool :=
  match p with
  | String c _ => is_sep c
  | EmptyString => false
  end.

(** [posixpath.join(a, b)] *)
Definition os_path_join (a b : string) : string :=
  if starts_with_sep b then b
  else if negb (nonempty a) || ends_with_sep a then a +:+ b
  else a +:+ "/" +:+ b.

(** What a path names: the empty path names nothing, the root and the
    current directory always exist, any other path is looked up as written. *)
Definition lookup_path (f : gmap string Node) (p : string) : option Node :=
  if negb (nonempty p) then None
  else if all_seps p || String.eqb p "." then Some Dir
  else f !! p.

Definition exists_in (f : gmap string Node) (p : string) : bool :=
  match lookup_path f p with
  | Some _ => true
  | None => false
  end.

Definition isdir_in (f : gmap string Node) (p : string) : bool :=
  match lookup_path f p with
  | Some Dir => true
  | _ => false
  end.

(** [os.path.exists(p)] *)
Definition os_path_exists (p : string) : M bool :=
  fun w => (Ok (exists_in (fs w) p), w).

(** [os.path.isdir(p)] *)
Definition os_path_isdir (p : string) : M bool :=
  fun w => (Ok (isdir_in (fs w) p), w).

(** [os.mkdir(p)]: the empty path and a path under a missing parent are
    ENOENT, an existing path is EEXIST, a parent that is a file is ENOTDIR.
    A path without a directory part lies in the current directory. *)
Definition os_mkdir (p : string) : M unit :=
  fun w =>
    if negb (nonempty p) then (Raise (mkExn FileNotFoundError p), w)
    else if exists_in (fs w) p then (Raise (mkExn FileExistsError p), w)
    else
      let parent := os_path_dirname (rstrip_sep p) in
      if negb (nonempty parent) then (Ok tt, with_fs (<[p := Dir]> (fs w)) w)
      else
        match lookup_path (fs w) parent with
        | Some Dir => (Ok tt, with_fs (<[p := Dir]> (fs w)) w)
        | Some (File _) => (Raise (mkExn NotADirectoryError p), w)
        | None => (Raise (mkExn FileNotFoundError p), w)
        end.

(** The last statement of [os.makedirs]:
    [try: mkdir(name) / except OSError: if not exist_ok or not
    path.isdir(name): raise]. *)
Definition mkdir_unless_there (name : string) (exist_ok : bool) : M unit :=
  try_except (os_mkdir name) isinstance_OSError
    (fun e =>
       let* is_dir := os_path_isdir name in
       if negb exist_ok || negb is_dir then raise e else ret tt).

(** [os.makedirs(name, exist_ok=exist_ok)], as in CPython's os.py; the
    recursion on the head of the path is bounded by [fuel]. *)
Fixpoint makedirs_fuel (fuel : nat) (name : string) (exist_ok : bool)
    : M unit :=
  match fuel with
  | O => raise (mkExn RuntimeError "maximum recursion depth exceeded")
  | S fuel' =>
      let (head, tail) := os_path_split name in
      let (head, tail) :=
        if negb (nonempty tail) then os_path_split head else (head, tail) in
      let* head_exists := os_path_exists head in
      let* stop :=
        (if nonempty head && nonempty tail && negb head_exists then
           try_except (makedirs_fuel fuel' head exist_ok)
             isinstance_FileExistsError (fun _ => ret tt) ;;
           ret (String.eqb tail ".")
         else ret false) in
      if stop : bool then ret tt else mkdir_unless_there name exist_ok
  end.

Definition os_makedirs (name : string) (exist_ok : bool) : M unit :=
  makedirs_fuel (S (String.length name)) name exist_ok.

(** ** The libraries

    Everything the script obtains from transformers, torch and onnxruntime.
    Each routine answers from its arguments and the world at the time of the
    call, with a value or an exception of any class.  The hub cache written
    by the loaders lies outside the modelled file system. *)

Record Env := mkEnv {
  (** [import module]: [None] when the module loads *)
  import_error : string -> option Exn;
  (** [AutoTokenizer.from_pretrained(name)] *)
  AutoTokenizer_from_pretrained : string -> World -> result Tokenizer;
  (** [AutoModelForSequenceClassification.from_pretrained(name)] *)
  AutoModel_from_pretrained : string -> World -> result Model;
  (** [tokenizer(query, doc, padding='max_length', truncation=True,
      max_length=n, return_tensors='pt')] *)
  tokenizer_call :
    Tokenizer -> string -> string -> Z -> World -> result (gmap string Tensor);
  (** [torch.onnx.export(...)]: [None] when the graph is exported *)
  onnx_export_error : ExportRequest -> World -> option Exn;
  (** [onnxruntime.InferenceSession(path)] *)
  InferenceSession : string -> World -> result Session;
  (** [session.run(None, feeds)] *)
  session_run : Session -> gmap string Tensor -> World -> result (list Tensor)
}.

(** [import module] *)
Definition import_module (env : Env) (module : string) : M unit :=
  call (CallImport module)
    (fun _ => match import_error env module with
              | None => Ok tt
              | Some e => Raise e
              end).

(** [torch.onnx.export(model, args, f, ...)]: raises, or writes at [f] the
    graph with the interface it was handed. *)
Definition onnx_export (env : Env) (req : ExportRequest) : M unit :=
  fun w =>
    let w1 := note (CallOnnxExport (exp_path req)) w in
    match onnx_export_error env req w with
    | Some e => (Raise e, w1)
    | None =>
        (Ok tt, with_fs (<[exp_path req := File (OnnxGraph req)]> (fs w1)) w1)
    end.

(** ** The script *)

Definition nl : string := String (Ascii.ascii_of_nat 10) EmptyString.

(** [repr] of a shape tuple: [()], [(1,)], [(1, 1)]. *)
Fixpoint join_comma (l : list Z) : string :=
  match l with
  | [] => ""
  | [x] => pretty x
  | x :: r => pretty x +:+ ", " +:+ join_comma r
  end.

Definition repr_shape (l : list Z) : string :=
  match l with
  | [x] => "(" +:+ pretty x +:+ ",)"
  | _ => "(" +:+ join_comma l +:+ ")"
  end.

Definition dummy_query : string := "What is machine learning?".
Definition dummy_doc : string :=
  "Machine learning is a subset of artificial intelligence.".

Definition input_names : list string :=
  ["input_ids"; "attention_mask"; "token_type_ids"].
Definition output_names : list string := ["logits"].

Definition dynamic_axes : gmap string (gmap Z string) :=
  {[ "input_ids" := {[ 0 := "batch_size"; 1 := "sequence" ]};
     "attention_mask" := {[ 0 := "batch_size"; 1 := "sequence" ]};
     "token_type_ids" := {[ 0 := "batch_size"; 1 := "sequence" ]};
     "logits" := {[ 0 := "batch_size" ]} ]}.

Section Script.

Variable env : Env.

(** Lines 29-47: load the model and the tokenizer, build the dummy input. *)
Definition load_stage (model_name : string) (max_length : Z)
    : M (Model * gmap string Tensor) :=
  print ("Loading model: " +:+ model_name) ;;
  let* tokenizer :=
    call (CallTokenizerFromPretrained model_name)
      (AutoTokenizer_from_pretrained env model_name) in
  let* model :=
    call (CallModelFromPretrained model_name)
      (AutoModel_from_pretrained env model_name) in
  let model := eval model in
  let* inputs :=
    call (CallTokenizer max_length)
      (tokenizer_call env tokenizer dummy_query dummy_doc max_length) in
  ret (model, inputs).

(** The request built at lines 53-67. *)
Definition export_request (model : Model) (ids mask types : Tensor)
    (output_path : string) (opset_version : Z) : ExportRequest :=
  {| exp_model := model;
     exp_args := (ids, mask, types);
     exp_path := output_path;
     exp_export_params := true;
     exp_opset_version := opset_version;
     exp_input_names := input_names;
     exp_output_names := output_names;
     exp_dynamic_axes := dynamic_axes |}.

(** Lines 50-71: export and report. *)
Definition export_stage (model : Model) (inputs : gmap string Tensor)
    (output_path : string) (max_length opset_version : Z) : M unit :=
  print "Converting to ONNX format..." ;;
  let* ids := getitem inputs "input_ids" in
  let* mask := getitem inputs "attention_mask" in
  let* types := getitem inputs "token_type_ids" in
  onnx_export env (export_request model ids mask types output_path opset_version) ;;
  print ("✅ Model saved to: " +:+ output_path) ;;
  print ("   Model dimensions: batch_size x " +:+ pretty max_length) ;;
  print ("   Output shape: batch_size x " +:+ pretty (num_labels model)).

(** Lines 75-91: the body of the [try]. *)
Definition verify_body (inputs : gmap string Tensor) (output_path : string)
    : M unit :=
  import_module env "onnxruntime" ;;
  print (nl +:+ "Verifying ONNX model...") ;;
  let* session :=
    call (CallInferenceSession output_path) (InferenceSession env output_path) in
  let* ids := getitem inputs "input_ids" in
  let* mask := getitem inputs "attention_mask" in
  let* types := getitem inputs "token_type_ids" in
  let feeds : gmap string Tensor :=
    {[ "input_ids" := numpy ids;
       "attention_mask" := numpy mask;
       "token_type_ids" := numpy types ]} in
  let* outputs :=
    call (CallSessionRun output_path) (session_run env session feeds) in
  print "✅ Verification successful!" ;;
  let* first := list_getitem outputs 0 in
  print ("   Output shape: " +:+ repr_shape (shape first)).

(** Lines 93-95: the handler. *)
Definition verify_skipped : M unit :=
  print "⚠️ onnxruntime not installed. Skipping verification." ;;
  print "   Install with: pip install onnxruntime".

(** Lines 74-95. *)
Definition verify_stage (inputs : gmap string Tensor) (output_path : string)
    : M unit :=
  try_except (verify_body inputs output_path)
    isinstance_ImportError (fun _ => verify_skipped).

Definition convert_cross_encoder_to_onnx (model_name output_path : string)
    (max_length opset_version : Z) : M unit :=
  (fun w =>
     (Ok tt, note (CallConvert model_name output_path max_length opset_version) w)) ;;
  let* loaded := load_stage model_name max_length in
  let (model, inputs) := loaded : Model * gmap string Tensor in
  export_stage model inputs output_path max_length opset_version ;;
  verify_stage inputs output_path.

Definition default_max_length : Z := 512.
Definition default_opset_version : Z := 14.

Definition models : list (string * string) :=
  [ ("cross-encoder/ms-marco-MiniLM-L6-v2", "ms-marco-MiniLM-L6-v2.onnx");
    ("cross-encoder/ms-marco-MiniLM-L12-v2", "ms-marco-MiniLM-L12-v2.onnx");
    ("cross-encoder/ms-marco-TinyBERT-L-2-v2", "ms-marco-TinyBERT-L2-v2.onnx") ].

(** One turn of the loop at lines 109-119. *)
Definition batch_item (output_dir : string) (item : string * string) : M unit :=
  let (model_name, output_name) := item in
  let output_path := os_path_join output_dir output_name in
  let* found := os_path_exists output_path in
  if found : bool then
    print ("⏭️ " +:+ output_name +:+ " already exists, skipping...")
  else
    try_except
      (convert_cross_encoder_to_onnx model_name output_path
         default_max_length default_opset_version)
      isinstance_Exception
      (fun e =>
         print ("❌ Failed to convert " +:+ model_name +:+ ": " +:+ exn_msg e)).

(** [for model_name, output_name in l: ...] *)
Fixpoint batch_loop (output_dir : string) (l : list (string * string))
    : M unit :=
  match l with
  | [] => ret tt
  | item :: rest => batch_item output_dir item ;; batch_loop output_dir rest
  end.

Definition download_and_convert_popular_models (output_dir : string) : M unit :=
  os_makedirs output_dir true ;;
  batch_loop output_dir models.

(** The namespace returned by [parser.parse_args()]. *)
Record Args := mkArgs {
  arg_model : string;
  arg_output : string;
  arg_max_length : Z;
  arg_download_popular : bool;
  arg_output_dir : string
}.

(** The defaults declared at lines 126-158. *)
Definition default_args : Args :=
  {| arg_model := "cross-encoder/ms-marco-MiniLM-L6-v2";
     arg_output := "models/cross-encoder.onnx";
     arg_max_length := 512;
     arg_download_popular := false;
     arg_output_dir := "models" |}.

(** Lines 162-171. *)
Definition main (args : Args) : M unit :=
  if arg_download_popular args then
    download_and_convert_popular_models (arg_output_dir args)
  else
    os_makedirs (os_path_dirname (arg_output args)) true ;;
    convert_cross_encoder_to_onnx (arg_model args) (arg_output args)
      (arg_max_length args) default_opset_version.

(** [sys.exit(code)] *)
Definition sys_exit (code : Z) : M unit := raise (mkExn (SystemExit code) "").

(** Lines 10-12, executed when the module is loaded. *)
Definition module_imports : M unit :=
  import_module env "torch" ;;
  import_module env "transformers" ;;
  import_module env "torch.onnx".

(** Lines 173-183. *)
Definition dunder_main (args : Args) : M unit :=
  try_except
    (import_module env "transformers" ;;
     import_module env "torch")
    isinstance_ImportError
    (fun _ =>
       print "❌ Missing dependencies!" ;;
       print "Install with: pip install transformers torch" ;;
       sys_exit 1) ;;
  main args.

(** Running the file as a script: the module body from top to bottom. *)
Definition script (args : Args) : M unit :=
  module_imports ;;
  dunder_main args.

End Script.

(** The status the interpreter exits with: 0 when the module body runs to
    its end, the code of an uncaught SystemExit, 130 after an uncaught
    KeyboardInterrupt, 1 after a traceback. *)
Definition exit_status (r : result unit) : Z :=
  match r with
  | Ok _ => 0
  | Raise e =>
      match exn_class e with
      | SystemExit code => code
      | KeyboardInterrupt => 130
      | _ => 1
      end
  end.

(** * Auxiliary definitions *)

(** ** Relations between worlds and what runs do to them *)

(** [frames Q m]: running [m] takes every world to one that is [Q]-related
    to it, however [m] ends. *)
Definition frames {A} (Q : World -> World -> Prop) (m : M A) : Prop :=
  forall w, Q w (snd (m w)).

(** [raises_only P m]: every exception [m] ends with satisfies [P]. *)
Definition raises_only {A} (P : Exn -> Prop) (m : M A) : Prop :=
  forall w e w', m w = (Raise e, w') -> P e.

(** [respects R m]: from [R]-related worlds [m] ends the same way, in
    [R]-related worlds. *)
Definition respects {A} (R : World -> World -> Prop) (m : M A) : Prop :=
  forall w1 w2, R w1 w2 ->
    fst (m w1) = fst (m w2) /\ R (snd (m w1)) (snd (m w2)).

(** Worlds with the same file system. *)
Definition same_fs (w1 w2 : World) : Prop := fs w1 = fs w2.

(** Worlds with the same standard output and the same trace of calls: they
    may differ in their file systems only. *)
Definition same_log (w1 w2 : World) : Prop :=
  stdout w1 = stdout w2 /\ calls w1 = calls w2.

(** Worlds whose file system is the one before. *)
Definition keeps_fs (w w' : World) : Prop := fs w' = fs w.

(** What [os.makedirs] may do to a world: directories are added at paths
    that named nothing; every node that was there stays, nothing is printed
    and no library is called. *)
Definition adds_dirs (w w' : World) : Prop :=
  stdout w' = stdout w /\ calls w' = calls w /\
  (forall p n, fs w !! p = Some n -> fs w' !! p = Some n) /\
  (forall p c, fs w' !! p = Some (File c) -> fs w !! p = Some (File c)).

(** The trace grew by calls that all satisfy [P]. *)
Definition calls_grow (P : Call -> Prop) (w w' : World) : Prop :=
  exists made, calls w' = (calls w ++ made)%list /\ Forall P made.

(** A conversion called with the defaults of the procedure. *)
Definition uses_defaults (c : Call) : Prop :=
  match c with
  | CallConvert _ _ max_length opset_version =>
      max_length = 512 /\ opset_version = 14
  | _ => True
  end.

(** The entries of the trace that are entries into the procedure. *)
Definition is_convert (c : Call) : bool :=
  match c with
  | CallConvert _ _ _ _ => true
  | _ => false
  end.

(** The last component [os.makedirs] sees in a path. *)
Definition makedirs_tail (name : string) : string :=
  let (head, tail) := os_path_split name in
  if negb (nonempty tail) then snd (os_path_split head) else tail.

(** The trace once the imports of lines 10-12 and 176-177 have succeeded. *)
Definition after_imports (w : World) : World :=
  note (CallImport "torch")
    (note (CallImport "transformers")
       (note (CallImport "torch.onnx")
          (note (CallImport "transformers")
             (note (CallImport "torch") w)))).

(** ** Lines the script prints *)

(** The two warning lines of the handler at lines 93-95. *)
Definition skip_warning : list string :=
  [ "⚠️ onnxruntime not installed. Skipping verification.";
    "   Install with: pip install onnxruntime" ].

(** The four lines printed by a successful export. *)
Definition export_report (model : Model) (output_path : string)
    (max_length : Z) : list string :=
  [ "Converting to ONNX format...";
    "✅ Model saved to: " +:+ output_path;
    "   Model dimensions: batch_size x " +:+ pretty max_length;
    "   Output shape: batch_size x " +:+ pretty (num_labels model) ].

(** Line 113. *)
Definition skip_line (output_name : string) : string :=
  "⏭️ " +:+ output_name +:+ " already exists, skipping...".

(** Line 119. *)
Definition failure_line (model_name : string) (e : Exn) : string :=
  "❌ Failed to convert " +:+ model_name +:+ ": " +:+ exn_msg e.

(** ** Properties of the libraries *)

(** Libraries that answer without consulting the file system. *)
Record fs_blind (env : Env) : Prop := mk_fs_blind {
  blind_tokenizer_loader : forall name w1 w2, same_log w1 w2 ->
    AutoTokenizer_from_pretrained env name w1
    = AutoTokenizer_from_pretrained env name w2;
  blind_model_loader : forall name w1 w2, same_log w1 w2 ->
    AutoModel_from_pretrained env name w1 = AutoModel_from_pretrained env name w2;
  blind_tokenizer : forall tok q d n w1 w2, same_log w1 w2 ->
    tokenizer_call env tok q d n w1 = tokenizer_call env tok q d n w2;
  blind_export : forall req w1 w2, same_log w1 w2 ->
    onnx_export_error env req w1 = onnx_export_error env req w2;
  blind_session : forall path w1 w2, same_log w1 w2 ->
    InferenceSession env path w1 = InferenceSession env path w2;
  blind_run : forall sess feeds w1 w2, same_log w1 w2 ->
    session_run env sess feeds w1 = session_run env sess feeds w2
}.

(** Libraries whose failures are ordinary errors: instances of Exception,
    not KeyboardInterrupt or SystemExit. *)
Record ordinary_failures (env : Env) : Prop := mk_ordinary_failures {
  ordinary_import : forall module e,
    import_error env module = Some e -> isinstance_Exception e = true;
  ordinary_tokenizer_loader : forall name w e,
    AutoTokenizer_from_pretrained env name w = Raise e ->
    isinstance_Exception e = true;
  ordinary_model_loader : forall name w e,
    AutoModel_from_pretrained env name w = Raise e ->
    isinstance_Exception e = true;
  ordinary_tokenizer : forall tok q d n w e,
    tokenizer_call env tok q d n w = Raise e -> isinstance_Exception e = true;
  ordinary_export : forall req w e,
    onnx_export_error env req w = Some e -> isinstance_Exception e = true;
  ordinary_session : forall path w e,
    InferenceSession env path w = Raise e -> isinstance_Exception e = true;
  ordinary_run : forall sess feeds w e,
    session_run env sess feeds w = Raise e -> isinstance_Exception e = true
}.

Definition ordinary (e : Exn) : Prop := isinstance_Exception e = true.

(** ** Sample installations, worlds and command lines

    A working installation and variations of it in which one library
    routine fails, used to run the script on concrete inputs. *)

(** What the sample tokenizer returns: three rows of [max_length] entries. *)
Definition sample_encoding (max_length : Z) : gmap string Tensor :=
  let row := mkTensor [1; max_length] (replicate (Z.to_nat max_length) 0) in
  {[ "input_ids" := row; "attention_mask" := row; "token_type_ids" := row ]}.

(** Every library is installed and every call succeeds; models have one
    label. *)
Definition sample_env : Env :=
  {| import_error := fun _ => None;
     AutoTokenizer_from_pretrained := fun name _ => Ok (mkTokenizer name);
     AutoModel_from_pretrained := fun name _ => Ok (mkModel name 1 true);
     tokenizer_call := fun _ _ _ max_length _ => Ok (sample_encoding max_length);
     onnx_export_error := fun _ _ => None;
     InferenceSession := fun path _ => Ok (mkSession path);
     session_run := fun _ _ _ => Ok [mkTensor [1; 1] [0]] |}.

(** [import module] raises [e]. *)
Definition failing_import (module : string) (e : Exn) (env : Env) : Env :=
  {| import_error :=
       fun name => if String.eqb name module then Some e else import_error env name;
     AutoTokenizer_from_pretrained := AutoTokenizer_from_pretrained env;
     AutoModel_from_pretrained := AutoModel_from_pretrained env;
     tokenizer_call := tokenizer_call env;
     onnx_export_error := onnx_export_error env;
     InferenceSession := InferenceSession env;
     session_run := session_run env |}.

(** The tokenizer of [model_name] cannot be loaded. *)
Definition failing_tokenizer_loader (model_name : string) (e : Exn) (env : Env)
    : Env :=
  {| import_error := import_error env;
     AutoTokenizer_from_pretrained :=
       fun name w =>
         if String.eqb name model_name then Raise e
         else AutoTokenizer_from_pretrained env name w;
     AutoModel_from_pretrained := AutoModel_from_pretrained env;
     tokenizer_call := tokenizer_call env;
     onnx_export_error := onnx_export_error env;
     InferenceSession := InferenceSession env;
     session_run := session_run env |}.

(** The weights of [model_name] cannot be loaded. *)
Definition failing_model_loader (model_name : string) (e : Exn) (env : Env)
    : Env :=
  {| import_error := import_error env;
     AutoTokenizer_from_pretrained := AutoTokenizer_from_pretrained env;
     AutoModel_from_pretrained :=
       fun name w =>
         if String.eqb name model_name then Raise e
         else AutoModel_from_pretrained env name w;
     tokenizer_call := tokenizer_call env;
     onnx_export_error := onnx_export_error env;
     InferenceSession := InferenceSession env;
     session_run := session_run env |}.

(** The exporter raises [e]. *)
Definition failing_export (e : Exn) (env : Env) : Env :=
  {| import_error := import_error env;
     AutoTokenizer_from_pretrained := AutoTokenizer_from_pretrained env;
     AutoModel_from_pretrained := AutoModel_from_pretrained env;
     tokenizer_call := tokenizer_call env;
     onnx_export_error := fun _ _ => Some e;
     InferenceSession := InferenceSession env;
     session_run := session_run env |}.

(** Building an inference session raises [e]. *)
Definition failing_session (e : Exn) (env : Env) : Env :=
  {| import_error := import_error env;
     AutoTokenizer_from_pretrained := AutoTokenizer_from_pretrained env;
     AutoModel_from_pretrained := AutoModel_from_pretrained env;
     tokenizer_call := tokenizer_call env;
     onnx_export_error := onnx_export_error env;
     InferenceSession := fun _ _ => Raise e;
     session_run := session_run env |}.

(** The inference run raises [e]. *)
Definition failing_run (e : Exn) (env : Env) : Env :=
  {| import_error := import_error env;
     AutoTokenizer_from_pretrained := AutoTokenizer_from_pretrained env;
     AutoModel_from_pretrained := AutoModel_from_pretrained env;
     tokenizer_call := tokenizer_call env;
     onnx_export_error := onnx_export_error env;
     InferenceSession := InferenceSession env;
     session_run := fun _ _ _ => Raise e |}.

Definition no_module (name : string) : Exn :=
  mkExn ModuleNotFoundError ("No module named '" +:+ name +:+ "'").

Definition hub_unreachable : Exn :=
  mkExn OSError "We couldn't connect to 'https://huggingface.co'".

Definition unsupported_operator : Exn :=
  mkExn RuntimeError "Unsupported: ONNX export of operator".

Definition lazy_import_failure : Exn :=
  mkExn ImportError "cannot import name 'onnxruntime_pybind11_state'".

Definition invalid_graph : Exn :=
  mkExn RuntimeError "[ONNXRuntimeError] : 1 : FAIL : Load model failed".

(** onnxruntime is not installed. *)
Definition env_without_onnxruntime : Env :=
  failing_import "onnxruntime" (no_module "onnxruntime") sample_env.

(** torch is not installed. *)
Definition env_without_torch : Env :=
  failing_import "torch" (no_module "torch") sample_env.

(** transformers is not installed. *)
Definition env_without_transformers : Env :=
  failing_import "transformers" (no_module "transformers") sample_env.

(** The hub has no tokenizer for the second model of the list. *)
Definition env_second_model_missing : Env :=
  failing_tokenizer_loader "cross-encoder/ms-marco-MiniLM-L12-v2"
    hub_unreachable sample_env.

(** Nothing on disk, nothing printed, nothing called. *)
Definition empty_world : World := {| fs := ∅; stdout := []; calls := [] |}.

(** A world with the [models] directory in place and nothing else. *)
Definition sample_world : World :=
  {| fs := {[ "models" := Dir ]}; stdout := []; calls := [] |}.

(** The sample world with a stale file where the graph is to be written. *)
Definition stale_world : World :=
  {| fs := {[ "models" := Dir;
              "models/cross-encoder.onnx" := File (Blob "stale") ]};
     stdout := []; calls := [] |}.

(** The world a first batch run leaves behind, starting from nothing. *)
Definition after_first_run : World :=
  snd (download_and_convert_popular_models sample_env "models" empty_world).

(** [--download-popular] *)
Definition batch_args : Args :=
  {| arg_model := arg_model default_args;
     arg_output := arg_output default_args;
     arg_max_length := arg_max_length default_args;
     arg_download_popular := true;
     arg_output_dir := arg_output_dir default_args |}.

(** [--download-popular --model ... --output ... --max-length 128] *)
Definition other_batch_args : Args :=
  {| arg_model := "sentence-transformers/all-MiniLM-L6-v2";
     arg_output := "elsewhere/out.onnx";
     arg_max_length := 128;
     arg_download_popular := true;
     arg_output_dir := "models" |}.

(** [--output output] *)
Definition single_args (output : string) : Args :=
  {| arg_model := arg_model default_args;
     arg_output := output;
     arg_max_length := arg_max_length default_args;
     arg_download_popular := false;
     arg_output_dir := arg_output_dir default_args |}.

(** ** Further relations and notions, for the whole-run properties *)

(** Standard output grew by lines that all satisfy [P]. *)
Definition lines_grow (P : string -> Prop) (w w' : World) : Prop :=
  exists added, stdout w' = (stdout w ++ added)%list /\ Forall P added.

(** Every node of the file system is still there, unchanged. *)
Definition keeps_nodes (w w' : World) : Prop :=
  forall p n, fs w !! p = Some n -> fs w' !! p = Some n.

(** No entry into the conversion procedure was added to the trace. *)
Definition same_conversions (w w' : World) : Prop :=
  List.filter is_convert (calls w') = List.filter is_convert (calls w).

(** The destination of a pair of the batch list (line 110). *)
Definition destination (output_dir : string) (item : string * string) : string :=
  os_path_join output_dir item.2.

(** The entry into the procedure made for a pair at line 117. *)
Definition conversion_of (output_dir : string) (item : string * string) : Call :=
  CallConvert item.1 (destination output_dir item)
    default_max_length default_opset_version.

(** The destination of the pair names nothing in the world. *)
Definition absent_in (w : World) (output_dir : string)
    (item : string * string) : bool :=
  negb (exists_in (fs w) (destination output_dir item)).

(** A file name as the batch list has them: not empty and not starting
    with a separator. *)
Definition plain_name (name : string) : bool :=
  nonempty name && negb (starts_with_sep name).

(** [os.makedirs] adds nodes at paths of at most [n] characters only. *)
Definition adds_upto (n : nat) (w w' : World) : Prop :=
  forall p, fs w !! p = None -> is_Some (fs w' !! p) ->
            (String.length p <= n)%nat.

(** The line printed at line 69. *)
Definition saved_line (output_path : string) : string :=
  "✅ Model saved to: " +:+ output_path.

(** The two guidance lines of the dependency check (lines 179-180). *)
Definition guidance : list string :=
  [ "❌ Missing dependencies!";
    "Install with: pip install transformers torch" ].

(** A line that is not one of the guidance lines. *)
Definition not_guidance (line : string) : Prop := line ∉ guidance.

(** The exported graphs cannot be loaded for the check. *)
Definition env_check_fails : Env :=
  failing_session invalid_graph sample_env.

(** The [models] directory with the second file of the batch list in
    place. *)
Definition second_in_place : World :=
  {| fs := {[ "models" := Dir;
              "models/ms-marco-MiniLM-L12-v2.onnx" := File (Blob "kept") ]};
     stdout := []; calls := [] |}.

(** * Properties *)

(** ** Paths *)

Section PathFacts.

Local Open Scope nat_scope.

Lemma cut_after_last_sep_no_sep p :
  has_sep p = false -> cut_after_last_sep p = (EmptyString, p).
Proof.
  destruct p as [|c r]; [done|]. simpl.
  intros [Hc Hr]%orb_false_elim. by rewrite Hr, Hc.
Qed.

Lemma cut_after_last_sep_head p :
  has_sep p = true -> nonempty (fst (cut_after_last_sep p)) = true.
Proof.
  destruct p as [|c r]; [done|]. simpl.
  destruct (has_sep r) eqn:Hr.
  - destruct (cut_after_last_sep r). done.
  - rewrite orb_false_r. by intros ->.
Qed.

Lemma cut_after_last_sep_length p :
  String.length (fst (cut_after_last_sep p))
  + String.length (snd (cut_after_last_sep p)) = String.length p.
Proof.
  induction p as [|c r IH]; [done|]. simpl.
  destruct (has_sep r).
  - destruct (cut_after_last_sep r) as [h t]. simpl in *. lia.
  - destruct (is_sep c); simpl; lia.
Qed.

Lemma rstrip_sep_length s : String.length (rstrip_sep s) <= String.length s.
Proof.
  induction s as [|c r IH]; [done|]. simpl.
  destruct (rstrip_sep r); [destruct (is_sep c)|]; simpl in *; lia.
Qed.

Lemma rstrip_sep_nonempty s :
  all_seps s = false -> nonempty (rstrip_sep s) = true.
Proof.
  induction s as [|c r IH]; [done|]. simpl.
  destruct (is_sep c) eqn:Hc; simpl.
  - intros Hr. specialize (IH Hr). by destruct (rstrip_sep r).
  - intros _. by destruct (rstrip_sep r).
Qed.

Lemma os_path_split_length p :
  String.length (fst (os_path_split p))
  + String.length (snd (os_path_split p)) <= String.length p.
Proof.
  unfold os_path_split.
  pose proof (cut_after_last_sep_length p) as Hcut.
  destruct (cut_after_last_sep p) as [h t]. simpl in *.
  destruct (nonempty h && negb (all_seps h)); simpl; [|lia].
  pose proof (rstrip_sep_length h). lia.
Qed.

(** A path has an empty directory part exactly when it holds no separator. *)
Lemma os_path_dirname_empty p :
  os_path_dirname p = EmptyString <-> has_sep p = false.
Proof.
  unfold os_path_dirname, os_path_split. split.
  - destruct (has_sep p) eqn:Hs; [|done].
    pose proof (cut_after_last_sep_head p Hs) as Hh.
    destruct (cut_after_last_sep p) as [h t]. simpl in *. rewrite Hh. simpl.
    destruct (all_seps h) eqn:Ha; simpl.
    + intros ->. done.
    + intros Hr. apply rstrip_sep_nonempty in Ha. by rewrite Hr in Ha.
  - intros Hs. by rewrite (cut_after_last_sep_no_sep p Hs).
Qed.

Lemma nonempty_length p : nonempty p = true -> 0 < String.length p.
Proof. destruct p; [done|]. simpl. lia. Qed.

End PathFacts.

(** ** The monad *)

Lemma bind_ok {A B} (m : M A) (k : A -> M B) w a w' :
  m w = (Ok a, w') -> bind m k w = k a w'.
Proof. unfold bind. by intros ->. Qed.

Lemma bind_raise {A B} (m : M A) (k : A -> M B) w e w' :
  m w = (Raise e, w') -> bind m k w = (Raise e, w').
Proof. unfold bind. by intros ->. Qed.

Lemma bind_inv_ok {A B} (m : M A) (k : A -> M B) w b w' :
  bind m k w = (Ok b, w') ->
  exists a w1, m w = (Ok a, w1) /\ k a w1 = (Ok b, w').
Proof.
  unfold bind. destruct (m w) as [[a|e] w1]; [eauto|done].
Qed.

Lemma bind_inv_raise {A B} (m : M A) (k : A -> M B) w e w' :
  bind m k w = (Raise e, w') ->
  m w = (Raise e, w') \/ exists a w1, m w = (Ok a, w1) /\ k a w1 = (Raise e, w').
Proof.
  unfold bind. destruct (m w) as [[a|e1] w1]; [eauto|].
  intros [= -> ->]. by left.
Qed.

Lemma bind_ext {A B} (m m' : M A) (k k' : A -> M B) w :
  m w = m' w ->
  (forall a w1, m w = (Ok a, w1) -> k a w1 = k' a w1) ->
  bind m k w = bind m' k' w.
Proof.
  intros Hm Hk. unfold bind. rewrite <- Hm.
  destruct (m w) as [[a|e] w1]; [by apply Hk|done].
Qed.

Lemma try_except_ext {A} (body body' : M A) catches handler w :
  body w = body' w ->
  try_except body catches handler w = try_except body' catches handler w.
Proof. unfold try_except. by intros ->. Qed.

Lemma try_except_ok {A} (body : M A) catches handler w a w' :
  body w = (Ok a, w') -> try_except body catches handler w = (Ok a, w').
Proof. unfold try_except. by intros ->. Qed.

Lemma try_except_caught {A} (body : M A) catches handler w e w' :
  body w = (Raise e, w') -> catches e = true ->
  try_except body catches handler w = handler e w'.
Proof. unfold try_except. by intros -> ->. Qed.

Lemma try_except_uncaught {A} (body : M A) catches handler w e w' :
  body w = (Raise e, w') -> catches e = false ->
  try_except body catches handler w = (Raise e, w').
Proof. unfold try_except. by intros -> ->. Qed.

(** *** Frames

    For a reflexive and transitive [Q], [frames Q] is closed under
    sequencing and exception handling. *)

Section Frames.

Variable Q : World -> World -> Prop.
Hypothesis Q_refl : forall w, Q w w.
Hypothesis Q_trans : forall w1 w2 w3, Q w1 w2 -> Q w2 w3 -> Q w1 w3.

Lemma frames_ret {A} (a : A) : frames Q (ret a).
Proof. intros w. apply Q_refl. Qed.

Lemma frames_raise {A} e : frames Q (@raise A e).
Proof. intros w. apply Q_refl. Qed.

Lemma frames_bind {A B} (m : M A) (k : A -> M B) :
  frames Q m -> (forall a, frames Q (k a)) -> frames Q (bind m k).
Proof.
  intros Hm Hk w. unfold bind. specialize (Hm w).
  destruct (m w) as [[a|e] w1]; simpl in *; [|done].
  eapply Q_trans; [exact Hm|apply Hk].
Qed.

Lemma frames_try_except {A} (body : M A) catches handler :
  frames Q body -> (forall e, frames Q (handler e)) ->
  frames Q (try_except body catches handler).
Proof.
  intros Hb Hh w. unfold try_except. specialize (Hb w).
  destruct (body w) as [[a|e] w1]; simpl in *; [done|].
  destruct (catches e); [|done].
  eapply Q_trans; [exact Hb|apply Hh].
Qed.

Lemma frames_getitem {V} (d : gmap string V) key : frames Q (getitem d key).
Proof. unfold getitem. destruct (d !! key); [apply frames_ret|apply frames_raise]. Qed.

Lemma frames_list_getitem {V} (l : list V) i : frames Q (list_getitem l i).
Proof.
  unfold list_getitem. destruct (l !! i); [apply frames_ret|apply frames_raise].
Qed.

Lemma frames_os_path_exists p : frames Q (os_path_exists p).
Proof. intros w. apply Q_refl. Qed.

Lemma frames_os_path_isdir p : frames Q (os_path_isdir p).
Proof. intros w. apply Q_refl. Qed.

Lemma frames_print line :
  (forall w, Q w (emit line w)) -> frames Q (print line).
Proof. intros Hemit w. apply Hemit. Qed.

Lemma frames_call {A} c (oracle : World -> result A) :
  (forall w, Q w (note c w)) -> frames Q (call c oracle).
Proof. intros Hnote w. apply Hnote. Qed.

End Frames.

Lemma frames_weaken {A} (Q1 Q2 : World -> World -> Prop) (m : M A) :
  (forall w w', Q1 w w' -> Q2 w w') -> frames Q1 m -> frames Q2 m.
Proof. intros Himpl Hm w. apply Himpl, Hm. Qed.

(** *** What a run may raise *)

Section RaisesOnly.

Variable P : Exn -> Prop.

Lemma raises_only_ret {A} (a : A) : raises_only P (ret a).
Proof. by intros w e w'. Qed.

Lemma raises_only_raise {A} e : P e -> raises_only P (@raise A e).
Proof. by intros He w e' w' [= <- _]. Qed.

Lemma raises_only_bind {A B} (m : M A) (k : A -> M B) :
  raises_only P m -> (forall a, raises_only P (k a)) ->
  raises_only P (bind m k).
Proof.
  intros Hm Hk w e w' [Hr|(a & w1 & _ & Hr)]%bind_inv_raise.
  - by eapply Hm.
  - by eapply Hk.
Qed.

Lemma raises_only_try_except {A} (body : M A) catches handler :
  raises_only P body -> (forall e, raises_only P (handler e)) ->
  raises_only P (try_except body catches handler).
Proof.
  intros Hb Hh w e w'. unfold try_except.
  destruct (body w) as [[a|e1] w1] eqn:Hbody; [done|].
  destruct (catches e1).
  - apply Hh.
  - intros [= <- _]. by eapply Hb.
Qed.

Lemma raises_only_print line : raises_only P (print line).
Proof. by intros w e w'. Qed.

Lemma raises_only_call {A} c (oracle : World -> result A) :
  (forall w e, oracle w = Raise e -> P e) -> raises_only P (call c oracle).
Proof. intros Ho w e w' [= Hr _]. by eapply Ho. Qed.

Lemma raises_only_getitem {V} (d : gmap string V) key :
  (forall msg, P (mkExn KeyError msg)) -> raises_only P (getitem d key).
Proof.
  intros Hk. unfold getitem.
  destruct (d !! key); [apply raises_only_ret|apply raises_only_raise, Hk].
Qed.

Lemma raises_only_list_getitem {V} (l : list V) i :
  (forall msg, P (mkExn IndexError msg)) -> raises_only P (list_getitem l i).
Proof.
  intros Hk. unfold list_getitem.
  destruct (l !! i); [apply raises_only_ret|apply raises_only_raise, Hk].
Qed.

End RaisesOnly.

(** *** Runs that cannot tell two worlds apart *)

Section Respects.

Variable R : World -> World -> Prop.

Lemma respects_ret {A} (a : A) : respects R (ret a).
Proof. by intros w1 w2 HR. Qed.

Lemma respects_raise {A} e : respects R (@raise A e).
Proof. by intros w1 w2 HR. Qed.

Lemma respects_bind {A B} (m : M A) (k : A -> M B) :
  respects R m -> (forall a, respects R (k a)) -> respects R (bind m k).
Proof.
  intros Hm Hk w1 w2 HR. unfold bind. destruct (Hm w1 w2 HR) as [Hr Hw].
  destruct (m w1) as [[a1|e1] v1], (m w2) as [[a2|e2] v2];
    simpl in *; try done.
  - injection Hr as ->. by apply Hk.
  - by injection Hr as ->.
Qed.

Lemma respects_try_except {A} (body : M A) catches handler :
  respects R body -> (forall e, respects R (handler e)) ->
  respects R (try_except body catches handler).
Proof.
  intros Hb Hh w1 w2 HR. unfold try_except. destruct (Hb w1 w2 HR) as [Hr Hw].
  destruct (body w1) as [[a1|e1] v1], (body w2) as [[a2|e2] v2];
    simpl in *; try done.
  injection Hr as ->. destruct (catches e2); [by apply Hh|done].
Qed.

Lemma respects_getitem {V} (d : gmap string V) key : respects R (getitem d key).
Proof.
  unfold getitem. destruct (d !! key); [apply respects_ret|apply respects_raise].
Qed.

Lemma respects_list_getitem {V} (l : list V) i : respects R (list_getitem l i).
Proof.
  unfold list_getitem.
  destruct (l !! i); [apply respects_ret|apply respects_raise].
Qed.

End Respects.

(** ** os.makedirs *)

Lemma adds_dirs_refl w : adds_dirs w w.
Proof. by repeat split. Qed.

Lemma adds_dirs_trans w1 w2 w3 :
  adds_dirs w1 w2 -> adds_dirs w2 w3 -> adds_dirs w1 w3.
Proof.
  intros (Ho1 & Hc1 & Hk1 & Hf1) (Ho2 & Hc2 & Hk2 & Hf2).
  repeat split; [congruence|congruence|auto|auto].
Qed.

Lemma exists_in_false_literal (f : gmap string Node) p :
  nonempty p = true -> exists_in f p = false -> f !! p = None.
Proof.
  unfold exists_in, lookup_path. intros ->. simpl.
  destruct (all_seps p || String.eqb p "."); [done|].
  by destruct (f !! p).
Qed.

Lemma lookup_path_insert_dir (f : gmap string Node) p :
  nonempty p = true -> lookup_path (<[p := Dir]> f) p = Some Dir.
Proof.
  unfold lookup_path. intros ->. simpl.
  destruct (all_seps p || String.eqb p "."); [done|].
  apply lookup_insert_eq.
Qed.

Lemma frames_os_mkdir p : frames adds_dirs (os_mkdir p).
Proof.
  intros w. unfold os_mkdir.
  destruct (negb (nonempty p)) eqn:Hp; [apply adds_dirs_refl|].
  apply negb_false_iff in Hp.
  destruct (exists_in (fs w) p) eqn:Hex; [apply adds_dirs_refl|].
  pose proof (exists_in_false_literal _ _ Hp Hex) as Hnone.
  assert (adds_dirs w (with_fs (<[p:=Dir]> (fs w)) w)) as Hadd.
  { repeat split; simpl; [|].
    - intros q n Hq. rewrite lookup_insert_ne; [done|congruence].
    - intros q c. destruct (decide (p = q)) as [->|Hne].
      + by rewrite lookup_insert_eq.
      + by rewrite lookup_insert_ne. }
  destruct (negb (nonempty (os_path_dirname (rstrip_sep p)))); [done|].
  destruct (lookup_path (fs w) (os_path_dirname (rstrip_sep p))) as [[|c]|];
    simpl; [done|apply adds_dirs_refl|apply adds_dirs_refl].
Qed.

Lemma frames_mkdir_unless_there name exist_ok :
  frames adds_dirs (mkdir_unless_there name exist_ok).
Proof.
  apply frames_try_except; [apply adds_dirs_trans|apply frames_os_mkdir|].
  intros e. apply frames_bind; [apply adds_dirs_trans|by intros w|].
  intros is_dir. destruct (negb exist_ok || negb is_dir);
    [apply frames_raise|apply frames_ret]; apply adds_dirs_refl.
Qed.

Lemma frames_makedirs_fuel fuel name exist_ok :
  frames adds_dirs (makedirs_fuel fuel name exist_ok).
Proof.
  revert name. induction fuel as [|fuel IH]; intros name.
  - apply frames_raise, adds_dirs_refl.
  - simpl. destruct (os_path_split name) as [h0 t0].
    destruct (if negb (nonempty t0) then os_path_split h0 else (h0, t0))
      as [head tail].
    apply frames_bind; [apply adds_dirs_trans|by intros w|]. intros found.
    apply frames_bind; [apply adds_dirs_trans| |].
    + destruct (nonempty head && nonempty tail && negb found).
      * apply frames_bind; [apply adds_dirs_trans| |].
        -- apply frames_try_except; [apply adds_dirs_trans|apply IH|].
           intros e. apply frames_ret, adds_dirs_refl.
        -- intros _. apply frames_ret, adds_dirs_refl.
      * apply frames_ret, adds_dirs_refl.
    + intros [|]; [apply frames_ret, adds_dirs_refl|].
      apply frames_mkdir_unless_there.
Qed.

Lemma frames_os_makedirs name exist_ok :
  frames adds_dirs (os_makedirs name exist_ok).
Proof. apply frames_makedirs_fuel. Qed.

(** The outcome of [os.makedirs] is decided by the file system alone. *)
Lemma respects_os_mkdir p : respects same_fs (os_mkdir p).
Proof.
  intros w1 w2 HR. unfold same_fs in *. unfold os_mkdir. rewrite HR.
  destruct (negb (nonempty p)); [done|].
  destruct (exists_in (fs w2) p); [done|].
  destruct (negb (nonempty (os_path_dirname (rstrip_sep p)))); [done|].
  by destruct (lookup_path (fs w2) (os_path_dirname (rstrip_sep p))) as [[|c]|].
Qed.

Lemma respects_makedirs_fuel fuel name exist_ok :
  respects same_fs (makedirs_fuel fuel name exist_ok).
Proof.
  revert name. induction fuel as [|fuel IH]; intros name.
  - apply respects_raise.
  - simpl. destruct (os_path_split name) as [h0 t0].
    destruct (if negb (nonempty t0) then os_path_split h0 else (h0, t0))
      as [head tail].
    apply respects_bind.
    { intros w1 w2 HR. unfold same_fs in *. simpl. by rewrite HR. }
    intros found. apply respects_bind.
    + destruct (nonempty head && nonempty tail && negb found).
      * apply respects_bind; [|intros _; apply respects_ret].
        apply respects_try_except; [apply IH|]. intros e. apply respects_ret.
      * apply respects_ret.
    + intros [|]; [apply respects_ret|].
      apply respects_try_except; [apply respects_os_mkdir|].
      intros e. apply respects_bind.
      { intros w1 w2 HR. unfold same_fs in *. simpl. by rewrite HR. }
      intros is_dir. destruct (negb exist_ok || negb is_dir);
        [apply respects_raise|apply respects_ret].
Qed.

(** The fuel handed out by [os_makedirs] is enough: with any larger amount
    the run is the same, so the bound is never what ends a run. *)
Lemma makedirs_fuel_enough n m name exist_ok w :
  (String.length name < n)%nat -> (String.length name < m)%nat ->
  makedirs_fuel n name exist_ok w = makedirs_fuel m name exist_ok w.
Proof.
  revert m name w. induction n as [|n IH]; intros m name w Hn Hm; [lia|].
  destruct m as [|m]; [lia|]. simpl.
  pose proof (os_path_split_length name) as Hlen.
  destruct (os_path_split name) as [h0 t0]. simpl in Hlen.
  assert (forall head tail,
    (if negb (nonempty t0) then os_path_split h0 else (h0, t0)) = (head, tail) ->
    nonempty tail = true -> (String.length head < String.length name)%nat)
    as Hshort.
  { intros head tail Heq Htail. apply nonempty_length in Htail.
    destruct (negb (nonempty t0)).
    - pose proof (os_path_split_length h0) as Hlen'. rewrite Heq in Hlen'.
      simpl in Hlen'. lia.
    - injection Heq as -> ->. lia. }
  destruct (if negb (nonempty t0) then os_path_split h0 else (h0, t0))
    as [head tail].
  specialize (Hshort head tail eq_refl).
  apply bind_ext; [done|]. intros found w1 _.
  apply bind_ext; [|done].
  destruct (nonempty head && nonempty tail && negb found) eqn:Hcond; [|done].
  apply andb_true_iff in Hcond as [[_ Htail]%andb_true_iff _].
  specialize (Hshort Htail).
  apply bind_ext; [|done]. apply try_except_ext, IH; lia.
Qed.

Lemma os_makedirs_empty exist_ok w :
  os_makedirs "" exist_ok w = (Raise (mkExn FileNotFoundError ""), w).
Proof. by destruct exist_ok. Qed.

Lemma mkdir_unless_there_ok_isdir name exist_ok w w' :
  mkdir_unless_there name exist_ok w = (Ok tt, w') ->
  isdir_in (fs w') name = true.
Proof.
  unfold mkdir_unless_there, try_except.
  destruct (os_mkdir name w) as [[[]|e] w1] eqn:Hmk.
  - (* mkdir made it *)
    intros [= <-]. revert Hmk. unfold os_mkdir.
    destruct (negb (nonempty name)) eqn:Hne; [done|].
    apply negb_false_iff in Hne.
    assert (isdir_in (fs (with_fs (<[name:=Dir]> (fs w)) w)) name = true)
      as Hmade.
    { unfold isdir_in. simpl. by rewrite lookup_path_insert_dir. }
    destruct (exists_in (fs w) name); [done|].
    destruct (negb (nonempty (os_path_dirname (rstrip_sep name)))).
    { by intros [= <-]. }
    by destruct (lookup_path (fs w) (os_path_dirname (rstrip_sep name)))
      as [[|c]|]; intros [= <-].
  - (* mkdir raised, and the handler found the directory *)
    destruct (isinstance_OSError e); [|done].
    unfold bind, os_path_isdir. simpl.
    destruct (negb exist_ok || negb (isdir_in (fs w1) name)) eqn:Hc; [done|].
    intros [= <-]. apply orb_false_elim in Hc as [_ Hc].
    by apply negb_false_iff.
Qed.

(** When [os.makedirs] returns, the path names a directory; a path spelled
    with a final [.] component is left to its head. *)
Lemma os_makedirs_ok_isdir name exist_ok w w' :
  os_makedirs name exist_ok w = (Ok tt, w') ->
  isdir_in (fs w') name = true \/ makedirs_tail name = ".".
Proof.
  unfold os_makedirs, makedirs_tail. simpl.
  destruct (os_path_split name) as [h0 t0].
  set (tail' := if negb (nonempty t0) then snd (os_path_split h0) else t0).
  assert ((if negb (nonempty t0) then os_path_split h0 else (h0, t0))
          = ((if negb (nonempty t0) then fst (os_path_split h0) else h0), tail'))
    as ->.
  { unfold tail'. destruct (negb (nonempty t0)); [|done].
    by destruct (os_path_split h0). }
  intros (found & w1 & _ & Hrest)%bind_inv_ok.
  apply bind_inv_ok in Hrest as (stop & w2 & Hstop & Hmk).
  destruct stop.
  - right. revert Hstop.
    match goal with |- context [if ?c then _ else ret false] => destruct c end.
    + intros (_ & w3 & _ & [= Heq _])%bind_inv_ok. by apply String.eqb_eq.
    + by intros [= ].
  - left. by eapply mkdir_unless_there_ok_isdir.
Qed.

(** ** The conversion procedure *)

Lemma keeps_fs_refl w : keeps_fs w w.
Proof. done. Qed.

Lemma keeps_fs_trans w1 w2 w3 : keeps_fs w1 w2 -> keeps_fs w2 w3 -> keeps_fs w1 w3.
Proof. unfold keeps_fs. congruence. Qed.

Section Convert.

Variable env : Env.

Local Ltac frame_steps refl trans :=
  repeat first
    [ apply frames_bind; [exact trans| |intros ?]
    | apply frames_try_except; [exact trans| |intros ?]
    | apply frames_print; by intros
    | apply frames_call; by intros
    | apply frames_getitem; exact refl
    | apply frames_list_getitem; exact refl
    | apply frames_ret; exact refl
    | apply frames_raise; exact refl ].

Lemma frames_load_stage model_name max_length :
  frames keeps_fs (load_stage env model_name max_length).
Proof. unfold load_stage. frame_steps keeps_fs_refl keeps_fs_trans. Qed.

Lemma frames_verify_stage inputs output_path :
  frames keeps_fs (verify_stage env inputs output_path).
Proof.
  unfold verify_stage, verify_body, verify_skipped, import_module.
  frame_steps keeps_fs_refl keeps_fs_trans.
Qed.

(** The procedure, stage by stage. *)
Lemma convert_stages model_name output_path max_length opset_version w :
  convert_cross_encoder_to_onnx env model_name output_path max_length
    opset_version w =
  match load_stage env model_name max_length
          (note (CallConvert model_name output_path max_length opset_version) w)
  with
  | (Ok (model, inputs), w1) =>
      match export_stage env model inputs output_path max_length
              opset_version w1 with
      | (Ok _, w2) => verify_stage env inputs output_path w2
      | (Raise e, w2) => (Raise e, w2)
      end
  | (Raise e, w1) => (Raise e, w1)
  end.
Proof.
  unfold convert_cross_encoder_to_onnx, bind at 1 2. simpl.
  destruct (load_stage env model_name max_length _) as [[[model inputs]|e] w1];
    [|done].
  unfold bind. by destruct (export_stage env model inputs _ _ _ w1) as [[?|?] ?].
Qed.

(** A successful export: the three tensors were in the encoding, the
    exporter accepted the request, and the one change to the file system is
    the graph at the output path. *)
Lemma export_stage_ok model inputs output_path max_length opset_version w w2 :
  export_stage env model inputs output_path max_length opset_version w
    = (Ok tt, w2) ->
  exists ids mask types,
    inputs !! "input_ids" = Some ids /\
    inputs !! "attention_mask" = Some mask /\
    inputs !! "token_type_ids" = Some types /\
    let req :=
      export_request model ids mask types output_path opset_version in
    onnx_export_error env req (emit "Converting to ONNX format..." w) = None /\
    fs w2 = <[output_path := File (OnnxGraph req)]> (fs w) /\
    stdout w2 = (stdout w ++ export_report model output_path max_length)%list /\
    calls w2 = (calls w ++ [CallOnnxExport output_path])%list.
Proof.
  unfold export_stage, bind, print, getitem, onnx_export. simpl.
  destruct (inputs !! "input_ids") as [ids|]; [|done]. simpl.
  destruct (inputs !! "attention_mask") as [mask|]; [|done]. simpl.
  destruct (inputs !! "token_type_ids") as [types|]; [|done]. simpl.
  destruct (onnx_export_error env _ _) eqn:Herr; [done|].
  intros [= <-]. exists ids, mask, types. simpl.
  repeat split; try done. unfold export_report. by rewrite <- !app_assoc.
Qed.

(** A failed export stage wrote nothing. *)
Lemma export_stage_raise model inputs output_path max_length opset_version
    w e w2 :
  export_stage env model inputs output_path max_length opset_version w
    = (Raise e, w2) ->
  fs w2 = fs w.
Proof.
  unfold export_stage, bind, print, getitem, onnx_export. simpl.
  destruct (inputs !! "input_ids") as [ids|]; [|by intros [= _ <-]]. simpl.
  destruct (inputs !! "attention_mask") as [mask|]; [|by intros [= _ <-]].
  simpl.
  destruct (inputs !! "token_type_ids") as [types|]; [|by intros [= _ <-]].
  simpl.
  destruct (onnx_export_error env _ _) eqn:Herr; [by intros [= _ <-]|done].
Qed.

(** Whatever the outcome, the procedure leaves the file system as it was or
    with a graph stored at the output path, and touches no other path. *)
Lemma convert_fs model_name output_path max_length opset_version w :
  let w' :=
    snd (convert_cross_encoder_to_onnx env model_name output_path max_length
           opset_version w) in
  fs w' = fs w \/
  exists req, exp_path req = output_path /\
    fs w' = <[output_path := File (OnnxGraph req)]> (fs w).
Proof.
  simpl. rewrite convert_stages.
  pose proof (frames_load_stage model_name max_length
    (note (CallConvert model_name output_path max_length opset_version) w))
    as Hload.
  destruct (load_stage env model_name max_length _)
    as [[[model inputs]|e] w1]; simpl in *; [|by left].
  destruct (export_stage env model inputs _ _ _ w1) as [[[]|e] w2] eqn:Hexp.
  - right. apply export_stage_ok in Hexp
      as (ids & mask & types & _ & _ & _ & _ & Hfs & _).
    eexists. split; [|rewrite (frames_verify_stage inputs output_path w2);
                       rewrite Hfs, Hload; reflexivity].
    done.
  - left. apply export_stage_raise in Hexp. simpl. by rewrite Hexp.
Qed.

(** A successful conversion, taken apart. *)
Lemma convert_ok model_name output_path max_length opset_version w w' :
  convert_cross_encoder_to_onnx env model_name output_path max_length
    opset_version w = (Ok tt, w') ->
  exists model inputs w1 w2 ids mask types,
    load_stage env model_name max_length
      (note (CallConvert model_name output_path max_length opset_version) w)
      = (Ok (model, inputs), w1) /\
    export_stage env model inputs output_path max_length opset_version w1
      = (Ok tt, w2) /\
    verify_stage env inputs output_path w2 = (Ok tt, w') /\
    inputs !! "input_ids" = Some ids /\
    inputs !! "attention_mask" = Some mask /\
    inputs !! "token_type_ids" = Some types /\
    fs w' = <[output_path :=
               File (OnnxGraph (export_request model ids mask types
                                  output_path opset_version))]> (fs w).
Proof.
  rewrite convert_stages.
  pose proof (frames_load_stage model_name max_length
    (note (CallConvert model_name output_path max_length opset_version) w))
    as Hload.
  destruct (load_stage env model_name max_length _)
    as [[[model inputs]|e] w1]; simpl in *; [|done].
  destruct (export_stage env model inputs _ _ _ w1) as [[[]|e] w2] eqn:Hexp;
    [|done].
  pose proof Hexp as Hexp'.
  apply export_stage_ok in Hexp'
    as (ids & mask & types & Hids & Hmask & Htypes & _ & Hfs & _).
  intros Hver. exists model, inputs, w1, w2, ids, mask, types.
  pose proof (frames_verify_stage inputs output_path w2) as Hkeep.
  rewrite Hver in Hkeep. simpl in Hkeep. unfold keeps_fs in *.
  repeat split; try done. by rewrite Hkeep, Hfs, Hload.
Qed.

End Convert.

(** ** Interface of the exported graph *)

(** C1: when the conversion procedure returns normally, the file at the
    output path is the exported graph, and the interface it declares is
    exactly: inputs input_ids, attention_mask, token_type_ids; output logits;
    dynamic axes 0 (batch_size) and 1 (sequence) for each input and dynamic
    axis 0 (batch_size) alone for logits; no other name carries dynamic
    axes. *)
Theorem C1_exported_interface env model_name output_path max_length
    opset_version w w' :
  convert_cross_encoder_to_onnx env model_name output_path max_length
    opset_version w = (Ok tt, w') ->
  exists req,
    fs w' !! output_path = Some (File (OnnxGraph req)) /\
    exp_input_names req = ["input_ids"; "attention_mask"; "token_type_ids"] /\
    exp_output_names req = ["logits"] /\
    (forall name, name ∈ exp_input_names req ->
       exp_dynamic_axes req !! name
       = Some {[ 0 := "batch_size"; 1 := "sequence" ]}) /\
    exp_dynamic_axes req !! "logits" = Some {[ 0 := "batch_size" ]} /\
    dom (exp_dynamic_axes req)
    = list_to_set (exp_input_names req ++ exp_output_names req)%list.
Proof.
  intros (model & inputs & w1 & w2 & ids & mask & types & Hfs)%convert_ok.
  destruct Hfs as (_ & _ & _ & _ & _ & _ & Hfs).
  eexists. split; [rewrite Hfs; apply lookup_insert_eq|]. simpl.
  repeat split; try done.
  intros name Hin. unfold input_names in Hin.
  repeat (apply elem_of_cons in Hin as [->|Hin]; [done|]).
  by apply elem_of_nil in Hin.
Qed.

Lemma C1_exported_interface_witness :
  exists req,
    fs (snd (convert_cross_encoder_to_onnx sample_env
               "cross-encoder/ms-marco-MiniLM-L6-v2" "models/cross-encoder.onnx"
               8 14 sample_world))
      !! "models/cross-encoder.onnx" = Some (File (OnnxGraph req)) /\
    exp_input_names req = ["input_ids"; "attention_mask"; "token_type_ids"] /\
    exp_output_names req = ["logits"].
Proof.
  destruct (C1_exported_interface sample_env
              "cross-encoder/ms-marco-MiniLM-L6-v2" "models/cross-encoder.onnx"
              8 14 sample_world
              (snd (convert_cross_encoder_to_onnx sample_env
                      "cross-encoder/ms-marco-MiniLM-L6-v2"
                      "models/cross-encoder.onnx" 8 14 sample_world)))
    as (req & Hfile & Hin & Hout & _).
  - vm_compute. reflexivity.
  - exists req. auto.
Defined.

(** ** The output path is written without being looked at *)

Lemma respects_print line : respects same_log (print line).
Proof.
  intros w1 w2 [Ho Hc]. split; [done|]. split; simpl; congruence.
Qed.

Lemma respects_call {A} c (oracle : World -> result A) :
  (forall w1 w2, same_log w1 w2 -> oracle w1 = oracle w2) ->
  respects same_log (call c oracle).
Proof.
  intros Hblind w1 w2 HR. split; [by apply Hblind|].
  destruct HR as [Ho Hc]. split; simpl; congruence.
Qed.

Lemma respects_onnx_export env req :
  fs_blind env -> respects same_log (onnx_export env req).
Proof.
  intros Hblind w1 w2 HR. unfold onnx_export.
  rewrite (blind_export env Hblind req w1 w2 HR). destruct HR as [Ho Hc].
  destruct (onnx_export_error env req w2); (split; [done|]);
    split; simpl; congruence.
Qed.

Local Ltac respects_steps Hblind :=
  repeat first
    [ apply respects_bind; [|intros ?]
    | apply respects_try_except; [|intros ?]
    | apply respects_print
    | apply respects_call; first [by intros|by apply Hblind]
    | apply respects_getitem
    | apply respects_list_getitem
    | by apply respects_onnx_export
    | apply respects_ret ].

Lemma respects_load_stage env model_name max_length :
  fs_blind env -> respects same_log (load_stage env model_name max_length).
Proof. intros Hblind. unfold load_stage. respects_steps Hblind. Qed.

Lemma respects_export_stage env model inputs output_path max_length
    opset_version :
  fs_blind env ->
  respects same_log
    (export_stage env model inputs output_path max_length opset_version).
Proof. intros Hblind. unfold export_stage. respects_steps Hblind. Qed.

Lemma respects_verify_stage env inputs output_path :
  fs_blind env -> respects same_log (verify_stage env inputs output_path).
Proof.
  intros Hblind.
  unfold verify_stage, verify_body, verify_skipped, import_module.
  respects_steps Hblind.
Qed.

Lemma sample_env_fs_blind : fs_blind sample_env.
Proof. by split. Qed.

(** C6: a conversion that returns normally has changed the file system at
    the output path and nowhere else: the graph is stored there whatever the
    path named before, so a file already there is replaced.  The procedure
    never looks at the path first: started in another world with the same
    output and call history but any other file system (with or without a
    file at the path), it ends the same way, prints and calls the same, and
    stores the same graph, as long as the libraries do not consult the file
    system themselves. *)
Theorem C6_convert_overwrites env model_name output_path max_length
    opset_version w w' :
  convert_cross_encoder_to_onnx env model_name output_path max_length
    opset_version w = (Ok tt, w') ->
  exists req,
    exp_path req = output_path /\
    fs w' = <[output_path := File (OnnxGraph req)]> (fs w) /\
    (forall old, fs w !! output_path = Some (File old) ->
       fs w' !! output_path = Some (File (OnnxGraph req))) /\
    (forall p, p ≠ output_path -> fs w' !! p = fs w !! p) /\
    (fs_blind env -> forall v, same_log w v ->
       exists v',
         convert_cross_encoder_to_onnx env model_name output_path max_length
           opset_version v = (Ok tt, v') /\
         same_log w' v' /\
         fs v' = <[output_path := File (OnnxGraph req)]> (fs v)).
Proof.
  intros Hrun.
  destruct (convert_ok env _ _ _ _ _ _ Hrun)
    as (model & inputs & w1 & w2 & ids & mask & types
        & Hload & Hexp & Hver & Hids & Hmask & Htypes & Hfs).
  eexists. split; [|split; [exact Hfs|]]; [done|].
  split; [|split].
  - intros old _. rewrite Hfs. apply lookup_insert_eq.
  - intros p Hp. rewrite Hfs. by apply lookup_insert_ne.
  - intros Hblind v [Hout Hcalls].
    (* the three stages run in lockstep from [w] and from [v] *)
    set (c := CallConvert model_name output_path max_length opset_version)
      in *.
    assert (same_log (note c w) (note c v)) as Hlog0.
    { split; simpl; congruence. }
    destruct (respects_load_stage env model_name max_length Hblind _ _ Hlog0)
      as [Hr1 Hlog1].
    rewrite Hload in Hr1, Hlog1.
    destruct (load_stage env model_name max_length (note c v))
      as [r1 v1] eqn:Hload'. simpl in Hr1, Hlog1. subst r1.
    destruct (respects_export_stage env model inputs output_path max_length
                opset_version Hblind _ _ Hlog1) as [Hr2 Hlog2].
    rewrite Hexp in Hr2, Hlog2.
    destruct (export_stage env model inputs output_path max_length
                opset_version v1) as [r2 v2] eqn:Hexp'.
    simpl in Hr2, Hlog2. subst r2.
    destruct (respects_verify_stage env inputs output_path Hblind _ _ Hlog2)
      as [Hr3 Hlog3].
    rewrite Hver in Hr3, Hlog3.
    destruct (verify_stage env inputs output_path v2) as [r3 v'] eqn:Hver'.
    simpl in Hr3, Hlog3. subst r3.
    assert (convert_cross_encoder_to_onnx env model_name output_path
              max_length opset_version v = (Ok tt, v')) as Hrun'.
    { rewrite convert_stages. fold c. by rewrite Hload', Hexp'. }
    exists v'. split; [done|]. split; [done|].
    destruct (convert_ok env _ _ _ _ _ _ Hrun')
      as (model' & inputs' & u1 & u2 & ids' & mask' & types'
          & Hl & _ & _ & Hids' & Hmask' & Htypes' & Hfs').
    fold c in Hl. rewrite Hload' in Hl. injection Hl as <- <- <-.
    rewrite Hfs'. congruence.
Qed.

Lemma C6_convert_overwrites_witness :
  exists req,
    fs stale_world !! "models/cross-encoder.onnx" = Some (File (Blob "stale")) /\
    fs (snd (convert_cross_encoder_to_onnx sample_env
               "cross-encoder/ms-marco-MiniLM-L6-v2" "models/cross-encoder.onnx"
               8 14 stale_world))
      !! "models/cross-encoder.onnx" = Some (File (OnnxGraph req)) /\
    fs (snd (convert_cross_encoder_to_onnx sample_env
               "cross-encoder/ms-marco-MiniLM-L6-v2" "models/cross-encoder.onnx"
               8 14 sample_world))
      !! "models/cross-encoder.onnx" = Some (File (OnnxGraph req)).
Proof.
  destruct (C6_convert_overwrites sample_env
              "cross-encoder/ms-marco-MiniLM-L6-v2" "models/cross-encoder.onnx"
              8 14 stale_world
              (snd (convert_cross_encoder_to_onnx sample_env
                      "cross-encoder/ms-marco-MiniLM-L6-v2"
                      "models/cross-encoder.onnx" 8 14 stale_world)))
    as (req & _ & _ & Hold & _ & Hblind).
  - vm_compute. reflexivity.
  - exists req. split; [reflexivity|]. split; [by eapply Hold|].
    destruct (Hblind sample_env_fs_blind sample_world) as (v' & Hrun & _ & Hfs).
    + split; reflexivity.
    + rewrite Hrun. simpl. rewrite Hfs. apply lookup_insert_eq.
Defined.

(** ** The optional verification library *)

(** C5: when [import onnxruntime] raises ImportError, a conversion whose
    loading and export succeed returns normally: the graph is at the output
    path, the two warning lines are the last thing printed, and after the
    export the only call made is the failed import (no session is built or
    run).  And whenever the procedure does raise in such an installation,
    the exception came out of the loading or the export stage. *)
Theorem C5_missing_onnxruntime env model_name output_path max_length
    opset_version w e :
  import_error env "onnxruntime" = Some e ->
  isinstance_ImportError e = true ->
  let w0 :=
    note (CallConvert model_name output_path max_length opset_version) w in
  (forall model inputs w1 w2,
     load_stage env model_name max_length w0 = (Ok (model, inputs), w1) ->
     export_stage env model inputs output_path max_length opset_version w1
       = (Ok tt, w2) ->
     exists w' req,
       convert_cross_encoder_to_onnx env model_name output_path max_length
         opset_version w = (Ok tt, w') /\
       fs w' !! output_path = Some (File (OnnxGraph req)) /\
       stdout w' = (stdout w2 ++ skip_warning)%list /\
       calls w' = (calls w2 ++ [CallImport "onnxruntime"])%list) /\
  (forall e' w',
     convert_cross_encoder_to_onnx env model_name output_path max_length
       opset_version w = (Raise e', w') ->
     load_stage env model_name max_length w0 = (Raise e', w') \/
     exists model inputs w1,
       load_stage env model_name max_length w0 = (Ok (model, inputs), w1) /\
       export_stage env model inputs output_path max_length opset_version w1
         = (Raise e', w')).
Proof.
  intros Himp Hcls w0.
  assert (forall inputs w2,
    verify_stage env inputs output_path w2
    = (Ok tt, emit "   Install with: pip install onnxruntime"
                (emit "⚠️ onnxruntime not installed. Skipping verification."
                   (note (CallImport "onnxruntime") w2)))) as Hskip.
  { intros inputs w2.
    unfold verify_stage, try_except, verify_body, import_module, bind, call.
    by rewrite Himp, Hcls. }
  split.
  - intros model inputs w1 w2 Hload Hexp. rewrite convert_stages. fold w0.
    rewrite Hload, Hexp, Hskip.
    apply export_stage_ok in Hexp
      as (ids & mask & types & _ & _ & _ & _ & Hfs & _).
    eexists _, _. split; [done|]. simpl.
    split; [rewrite Hfs; apply lookup_insert_eq|].
    split; [rewrite <- app_assoc; reflexivity|done].
  - intros e' w'. rewrite convert_stages. fold w0.
    destruct (load_stage env model_name max_length w0)
      as [[[model inputs]|e1] w1]; [|intros [= -> ->]; left; reflexivity].
    destruct (export_stage env model inputs _ _ _ w1) as [[[]|e2] w2] eqn:Hexp.
    + by rewrite Hskip.
    + intros [= -> ->]. right. by exists model, inputs, w1.
Qed.

Lemma C5_missing_onnxruntime_witness :
  exists w' req,
    convert_cross_encoder_to_onnx env_without_onnxruntime
      "cross-encoder/ms-marco-MiniLM-L6-v2" "models/cross-encoder.onnx" 8 14
      sample_world = (Ok tt, w') /\
    fs w' !! "models/cross-encoder.onnx" = Some (File (OnnxGraph req)) /\
    stdout w' =
      [ "Loading model: cross-encoder/ms-marco-MiniLM-L6-v2";
        "Converting to ONNX format...";
        "✅ Model saved to: models/cross-encoder.onnx";
        "   Model dimensions: batch_size x 8";
        "   Output shape: batch_size x 1";
        "⚠️ onnxruntime not installed. Skipping verification.";
        "   Install with: pip install onnxruntime" ].
Proof.
  pose (w0 := note (CallConvert "cross-encoder/ms-marco-MiniLM-L6-v2"
                      "models/cross-encoder.onnx" 8 14) sample_world).
  pose (loaded := load_stage env_without_onnxruntime
                    "cross-encoder/ms-marco-MiniLM-L6-v2" 8 w0).
  pose (model := mkModel "cross-encoder/ms-marco-MiniLM-L6-v2" 1 false).
  pose (exported := export_stage env_without_onnxruntime model
                      (sample_encoding 8) "models/cross-encoder.onnx" 8 14
                      (snd loaded)).
  destruct (C5_missing_onnxruntime env_without_onnxruntime
              "cross-encoder/ms-marco-MiniLM-L6-v2" "models/cross-encoder.onnx"
              8 14 sample_world (no_module "onnxruntime")
              eq_refl eq_refl) as [Hok _].
  destruct (Hok model (sample_encoding 8) (snd loaded) (snd exported))
    as (w' & req & Hrun & Hfile & Hout & _).
  - vm_compute. reflexivity.
  - vm_compute. reflexivity.
  - exists w', req. split; [exact Hrun|]. split; [exact Hfile|].
    rewrite Hout. vm_compute. reflexivity.
Defined.

(** ** Failures while loading and exporting *)

(** C7: an exception raised by the tokenizer loader, by the model loader or
    by the exporter is the outcome of the procedure, in the world the failed
    call left: the routine was called once, nothing is called or printed
    after it, and the file system is untouched.  More generally, whatever
    the loading stage or the export stage raises is what the procedure
    raises. *)
Theorem C7_load_export_failures_propagate env model_name output_path
    max_length opset_version w e :
  let convert :=
    convert_cross_encoder_to_onnx env model_name output_path max_length
      opset_version in
  let w0 :=
    note (CallConvert model_name output_path max_length opset_version) w in
  let wA := emit ("Loading model: " +:+ model_name) w0 in
  let wB := note (CallTokenizerFromPretrained model_name) wA in
  (AutoTokenizer_from_pretrained env model_name wA = Raise e ->
   convert w = (Raise e, wB)) /\
  (forall tok,
     AutoTokenizer_from_pretrained env model_name wA = Ok tok ->
     AutoModel_from_pretrained env model_name wB = Raise e ->
     convert w = (Raise e, note (CallModelFromPretrained model_name) wB)) /\
  (forall model inputs w1 ids mask types,
     load_stage env model_name max_length w0 = (Ok (model, inputs), w1) ->
     inputs !! "input_ids" = Some ids ->
     inputs !! "attention_mask" = Some mask ->
     inputs !! "token_type_ids" = Some types ->
     let wC := emit "Converting to ONNX format..." w1 in
     onnx_export_error env
       (export_request model ids mask types output_path opset_version) wC
       = Some e ->
     convert w = (Raise e, note (CallOnnxExport output_path) wC) /\
     fs (note (CallOnnxExport output_path) wC) = fs w) /\
  (forall w',
     load_stage env model_name max_length w0 = (Raise e, w') ->
     convert w = (Raise e, w')) /\
  (forall model inputs w1 w',
     load_stage env model_name max_length w0 = (Ok (model, inputs), w1) ->
     export_stage env model inputs output_path max_length opset_version w1
       = (Raise e, w') ->
     convert w = (Raise e, w')).
Proof.
  intros convert w0 wA wB. subst convert.
  split; [|split; [|split; [|split]]].
  - intros Htok. rewrite convert_stages. fold w0.
    unfold load_stage, bind at 1, print. fold wA.
    unfold bind at 1, call at 1. by rewrite Htok.
  - intros tok Htok Hmodel. rewrite convert_stages. fold w0.
    unfold load_stage, bind at 1, print. fold wA.
    unfold bind at 1, call at 1. rewrite Htok. fold wB.
    unfold bind at 1, call at 1. by rewrite Hmodel.
  - intros model inputs w1 ids mask types Hload Hids Hmask Htypes wC Herr.
    split.
    + rewrite convert_stages. fold w0. rewrite Hload.
      unfold export_stage, bind, print, getitem, onnx_export.
      rewrite Hids, Hmask, Htypes. simpl. fold wC. by rewrite Herr.
    + simpl. pose proof (frames_load_stage env model_name max_length w0) as Hk.
      rewrite Hload in Hk. exact Hk.
  - intros w' Hload. rewrite convert_stages. fold w0. by rewrite Hload.
  - intros model inputs w1 w' Hload Hexp. rewrite convert_stages. fold w0.
    by rewrite Hload, Hexp.
Qed.

Lemma C7_load_export_failures_propagate_witness :
  let name := "cross-encoder/ms-marco-MiniLM-L6-v2" in
  let path := "models/cross-encoder.onnx" in
  let entered := [CallConvert name path 8 14] in
  (* the tokenizer cannot be fetched *)
  (let r := convert_cross_encoder_to_onnx
              (failing_tokenizer_loader name hub_unreachable sample_env)
              name path 8 14 sample_world in
   fst r = Raise hub_unreachable /\
   calls (snd r) = entered ++ [CallTokenizerFromPretrained name] /\
   fs (snd r) = fs sample_world)%list /\
  (* the model cannot be fetched *)
  (let r := convert_cross_encoder_to_onnx
              (failing_model_loader name hub_unreachable sample_env)
              name path 8 14 sample_world in
   fst r = Raise hub_unreachable /\
   calls (snd r) = entered ++ [CallTokenizerFromPretrained name;
                               CallModelFromPretrained name] /\
   fs (snd r) = fs sample_world)%list /\
  (* the exporter rejects the model *)
  (let r := convert_cross_encoder_to_onnx
              (failing_export unsupported_operator sample_env)
              name path 8 14 sample_world in
   fst r = Raise unsupported_operator /\
   calls (snd r) = entered ++ [CallTokenizerFromPretrained name;
                               CallModelFromPretrained name;
                               CallTokenizer 8; CallOnnxExport path] /\
   fs (snd r) = fs sample_world)%list.
Proof.
  intros name path entered. split; [|split].
  - destruct (C7_load_export_failures_propagate
                (failing_tokenizer_loader name hub_unreachable sample_env)
                name path 8 14 sample_world hub_unreachable) as (Htok & _).
    simpl in Htok. rewrite (Htok eq_refl). by vm_compute.
  - destruct (C7_load_export_failures_propagate
                (failing_model_loader name hub_unreachable sample_env)
                name path 8 14 sample_world hub_unreachable)
      as (_ & Hmodel & _).
    simpl in Hmodel. rewrite (Hmodel (mkTokenizer name) eq_refl eq_refl).
    by vm_compute.
  - destruct (C7_load_export_failures_propagate
                (failing_export unsupported_operator sample_env)
                name path 8 14 sample_world unsupported_operator)
      as (_ & _ & Hexport & _).
    pose (w1 := snd (load_stage
                       (failing_export unsupported_operator sample_env)
                       name 8 (note (CallConvert name path 8 14) sample_world))).
    pose (row := mkTensor [1; 8] (replicate 8 0)).
    destruct (Hexport (mkModel name 1 false) (sample_encoding 8) w1
                row row row) as [Hrun _];
      [by vm_compute..|].
    rewrite Hrun. by vm_compute.
Defined.

(** ** Failures during the verification pass *)

(** C8, as the claim states it, fails: with onnxruntime importable, a
    session constructor that raises an ImportError of its own is answered by
    the handler for the missing library, and the procedure returns normally
    after printing the warning. *)
Lemma C8_counterexample :
  ~ (forall env model_name output_path max_length opset_version w
            model inputs w1 w2 e w3,
       import_error env "onnxruntime" = None ->
       load_stage env model_name max_length
         (note (CallConvert model_name output_path max_length opset_version) w)
         = (Ok (model, inputs), w1) ->
       export_stage env model inputs output_path max_length opset_version w1
         = (Ok tt, w2) ->
       verify_body env inputs output_path w2 = (Raise e, w3) ->
       convert_cross_encoder_to_onnx env model_name output_path max_length
         opset_version w = (Raise e, w3)).
Proof.
  intros Hclaim.
  pose (env := failing_session lazy_import_failure sample_env).
  pose (name := "cross-encoder/ms-marco-MiniLM-L6-v2").
  pose (path := "models/cross-encoder.onnx").
  pose (w1 := snd (load_stage env name 8
                     (note (CallConvert name path 8 14) sample_world))).
  pose (model := mkModel name 1 false).
  pose (w2 := snd (export_stage env model (sample_encoding 8) path 8 14 w1)).
  pose (w3 := snd (verify_body env (sample_encoding 8) path w2)).
  specialize (Hclaim env name path 8 14 sample_world model (sample_encoding 8)
                w1 w2 lazy_import_failure w3).
  assert (fst (convert_cross_encoder_to_onnx env name path 8 14 sample_world)
          = Ok tt) as Hreturns by (by vm_compute).
  rewrite Hclaim in Hreturns; [done|by vm_compute..].
Qed.

(** C8, amended: with onnxruntime importable, an exception raised by the
    verification pass (building the session, the inference run, reading the
    first output) comes after the pass was announced on standard output and
    after the graph was stored at the output path.  If it is not an
    ImportError the procedure does not handle it: it is the procedure's
    outcome.  An ImportError raised there is taken for the missing library:
    the warning is printed and the procedure returns normally. *)
Theorem C8_verification_failure_propagates env model_name output_path
    max_length opset_version w model inputs w1 w2 e w3 :
  import_error env "onnxruntime" = None ->
  load_stage env model_name max_length
    (note (CallConvert model_name output_path max_length opset_version) w)
    = (Ok (model, inputs), w1) ->
  export_stage env model inputs output_path max_length opset_version w1
    = (Ok tt, w2) ->
  verify_body env inputs output_path w2 = (Raise e, w3) ->
  (exists rest,
     stdout w3 = (stdout w2 ++ (nl +:+ "Verifying ONNX model...") :: rest)%list) /\
  (exists req, fs w3 !! output_path = Some (File (OnnxGraph req))) /\
  (isinstance_ImportError e = false ->
   convert_cross_encoder_to_onnx env model_name output_path max_length
     opset_version w = (Raise e, w3)) /\
  (isinstance_ImportError e = true ->
   exists w',
     convert_cross_encoder_to_onnx env model_name output_path max_length
       opset_version w = (Ok tt, w') /\
     stdout w' = (stdout w3 ++ skip_warning)%list).
Proof.
  intros Himp Hload Hexp Hbody. split; [|split; [|split]].
  - revert Hbody.
    unfold verify_body, import_module, bind, call, print, getitem,
      list_getitem.
    rewrite Himp. simpl.
    assert (forall (r : result unit) (lines : list string) (made : list Call) f,
      (r, {| fs := f;
             stdout := ((stdout w2 ++ [nl +:+ "Verifying ONNX model..."])
                        ++ lines)%list;
             calls := made |}) = (Raise e, w3) ->
      exists rest,
        stdout w3
        = (stdout w2 ++ (nl +:+ "Verifying ONNX model...") :: rest)%list)
      as Hdone.
    { intros r lines made f [= _ <-]. exists lines. simpl.
      by rewrite <- app_assoc. }
    destruct (InferenceSession env output_path _) as [sess|e1]; simpl;
      [|intros Heq; eapply (Hdone _ []); rewrite app_nil_r; exact Heq].
    destruct (inputs !! "input_ids") as [ids|]; simpl;
      [|intros Heq; eapply (Hdone _ []); rewrite app_nil_r; exact Heq].
    destruct (inputs !! "attention_mask") as [mask|]; simpl;
      [|intros Heq; eapply (Hdone _ []); rewrite app_nil_r; exact Heq].
    destruct (inputs !! "token_type_ids") as [types|]; simpl;
      [|intros Heq; eapply (Hdone _ []); rewrite app_nil_r; exact Heq].
    destruct (session_run env sess _ _) as [outputs|e2]; simpl;
      [|intros Heq; eapply (Hdone _ []); rewrite app_nil_r; exact Heq].
    destruct (outputs !! 0%nat) as [first|]; simpl; [done|].
    intros Heq. by eapply (Hdone _ [_]).
  - apply export_stage_ok in Hexp
      as (ids & mask & types & _ & _ & _ & _ & Hfs & _).
    assert (frames keeps_fs (verify_body env inputs output_path)) as Hkeep.
    { unfold verify_body, import_module.
      repeat first
        [ apply frames_bind; [exact keeps_fs_trans| |intros ?]
        | apply frames_print; by intros
        | apply frames_call; by intros
        | apply frames_getitem; exact keeps_fs_refl
        | apply frames_list_getitem; exact keeps_fs_refl ]. }
    specialize (Hkeep w2). rewrite Hbody in Hkeep. unfold keeps_fs in Hkeep.
    simpl in Hkeep. eexists. rewrite Hkeep, Hfs. apply lookup_insert_eq.
  - intros Hcls. rewrite convert_stages, Hload, Hexp.
    unfold verify_stage. by apply try_except_uncaught.
  - intros Hcls. eexists. rewrite convert_stages, Hload, Hexp.
    unfold verify_stage.
    rewrite (try_except_caught _ _ _ _ _ _ Hbody Hcls).
    split; [reflexivity|]. simpl. rewrite <- app_assoc. reflexivity.
Qed.

Lemma C8_verification_failure_propagates_witness :
  let name := "cross-encoder/ms-marco-MiniLM-L6-v2" in
  let path := "models/cross-encoder.onnx" in
  let calls_before :=
    [ CallConvert name path 8 14; CallTokenizerFromPretrained name;
      CallModelFromPretrained name; CallTokenizer 8; CallOnnxExport path;
      CallImport "onnxruntime" ] in
  (* the session cannot be built *)
  (let r := convert_cross_encoder_to_onnx
              (failing_session invalid_graph sample_env)
              name path 8 14 sample_world in
   fst r = Raise invalid_graph /\
   calls (snd r) = calls_before ++ [CallInferenceSession path] /\
   is_Some (fs (snd r) !! path))%list /\
  (* the inference run fails *)
  (let r := convert_cross_encoder_to_onnx
              (failing_run invalid_graph sample_env)
              name path 8 14 sample_world in
   fst r = Raise invalid_graph /\
   calls (snd r) = calls_before ++ [CallInferenceSession path;
                                    CallSessionRun path] /\
   is_Some (fs (snd r) !! path))%list.
Proof.
  intros name path calls_before.
  pose (model := mkModel name 1 false).
  split.
  - pose (env := failing_session invalid_graph sample_env).
    pose (w1 := snd (load_stage env name 8
                       (note (CallConvert name path 8 14) sample_world))).
    pose (w2 := snd (export_stage env model (sample_encoding 8) path 8 14 w1)).
    pose (w3 := snd (verify_body env (sample_encoding 8) path w2)).
    destruct (C8_verification_failure_propagates env name path 8 14
                sample_world model (sample_encoding 8) w1 w2 invalid_graph w3)
      as (_ & [req Hfile] & Hraise & _); [by vm_compute..|].
    fold env. rewrite (Hraise eq_refl).
    split; [reflexivity|]. split; [by vm_compute|].
    exists (File (OnnxGraph req)). exact Hfile.
  - pose (env := failing_run invalid_graph sample_env).
    pose (w1 := snd (load_stage env name 8
                       (note (CallConvert name path 8 14) sample_world))).
    pose (w2 := snd (export_stage env model (sample_encoding 8) path 8 14 w1)).
    pose (w3 := snd (verify_body env (sample_encoding 8) path w2)).
    destruct (C8_verification_failure_propagates env name path 8 14
                sample_world model (sample_encoding 8) w1 w2 invalid_graph w3)
      as (_ & [req Hfile] & Hraise & _); [by vm_compute..|].
    fold env. rewrite (Hraise eq_refl).
    split; [reflexivity|]. split; [by vm_compute|].
    exists (File (OnnxGraph req)). exact Hfile.
Defined.

(** ** The batch driver *)

Lemma calls_grow_refl P w : calls_grow P w w.
Proof. exists []. by rewrite app_nil_r. Qed.

Lemma calls_grow_trans P w1 w2 w3 :
  calls_grow P w1 w2 -> calls_grow P w2 w3 -> calls_grow P w1 w3.
Proof.
  intros (m1 & H1 & HP1) (m2 & H2 & HP2). exists (m1 ++ m2)%list.
  split; [by rewrite H2, H1, app_assoc|by apply Forall_app].
Qed.

Lemma calls_grow_emit P line w : calls_grow P w (emit line w).
Proof. exists []. simpl. by rewrite app_nil_r. Qed.

Lemma calls_grow_note P c w : P c -> calls_grow P w (note c w).
Proof. intros Hc. exists [c]. split; [done|]. by constructor. Qed.

Lemma adds_dirs_calls_grow P w w' : adds_dirs w w' -> calls_grow P w w'.
Proof. intros (_ & Hc & _). exists []. by rewrite app_nil_r. Qed.

Section Batch.

Variable env : Env.

Lemma raises_only_convert model_name output_path max_length opset_version :
  ordinary_failures env ->
  raises_only ordinary
    (convert_cross_encoder_to_onnx env model_name output_path max_length
       opset_version).
Proof.
  intros Hord.
  unfold convert_cross_encoder_to_onnx, load_stage, export_stage, verify_stage,
    verify_body, verify_skipped, import_module.
  apply raises_only_bind; [by intros w e w'|]. intros _.
  repeat first
    [ apply raises_only_bind; [|intros ?]
    | apply raises_only_try_except; [|intros ?]
    | apply raises_only_print
    | apply raises_only_getitem; by intros
    | apply raises_only_list_getitem; by intros
    | apply raises_only_ret
    | apply raises_only_call; intros ? ?; first [apply Hord|idtac]
    | match goal with
      | |- raises_only _ (let (_, _) := ?p in _) => destruct p
      end ].
  - (* torch.onnx.export *)
    intros w e w'. unfold onnx_export.
    destruct (onnx_export_error env _ w) as [e'|] eqn:Herr; [|done].
    intros [= <- _]. by eapply ordinary_export.
  - (* import onnxruntime *)
    destruct (import_error env "onnxruntime") as [e'|] eqn:Himp; [|done].
    intros [= <-]. by eapply ordinary_import.
Qed.

Lemma frames_convert_defaults model_name output_path :
  frames (calls_grow uses_defaults)
    (convert_cross_encoder_to_onnx env model_name output_path
       default_max_length default_opset_version).
Proof.
  unfold convert_cross_encoder_to_onnx, load_stage, export_stage, verify_stage,
    verify_body, verify_skipped, import_module.
  apply frames_bind; [apply calls_grow_trans| |intros _].
  { intros w. by apply calls_grow_note. }
  repeat first
    [ apply frames_bind; [apply calls_grow_trans| |intros ?]
    | apply frames_try_except; [apply calls_grow_trans| |intros ?]
    | apply frames_print; intros; apply calls_grow_emit
    | apply frames_call; intros; by apply calls_grow_note
    | apply frames_getitem; apply calls_grow_refl
    | apply frames_list_getitem; apply calls_grow_refl
    | apply frames_ret; apply calls_grow_refl
    | match goal with
      | |- frames _ (let (_, _) := ?p in _) => destruct p
      end ].
  intros w. unfold onnx_export.
  destruct (onnx_export_error env _ w); by apply calls_grow_note.
Qed.

(** The three ways a turn of the loop can go. *)
Lemma batch_item_found output_dir model_name output_name w :
  exists_in (fs w) (os_path_join output_dir output_name) = true ->
  batch_item env output_dir (model_name, output_name) w
  = (Ok tt, emit (skip_line output_name) w).
Proof. unfold batch_item, bind, os_path_exists. simpl. by intros ->. Qed.

Lemma batch_item_converted output_dir model_name output_name w w' :
  exists_in (fs w) (os_path_join output_dir output_name) = false ->
  convert_cross_encoder_to_onnx env model_name
    (os_path_join output_dir output_name) default_max_length
    default_opset_version w = (Ok tt, w') ->
  batch_item env output_dir (model_name, output_name) w = (Ok tt, w').
Proof.
  unfold batch_item, bind, os_path_exists. simpl. intros -> Hrun.
  by apply try_except_ok.
Qed.

Lemma batch_item_failed output_dir model_name output_name w e w' :
  exists_in (fs w) (os_path_join output_dir output_name) = false ->
  convert_cross_encoder_to_onnx env model_name
    (os_path_join output_dir output_name) default_max_length
    default_opset_version w = (Raise e, w') ->
  isinstance_Exception e = true ->
  batch_item env output_dir (model_name, output_name) w
  = (Ok tt, emit (failure_line model_name e) w').
Proof.
  unfold batch_item, bind, os_path_exists. simpl. intros -> Hrun Hcls.
  by rewrite (try_except_caught _ _ _ _ _ _ Hrun Hcls).
Qed.

Lemma batch_item_returns output_dir item w :
  ordinary_failures env -> fst (batch_item env output_dir item w) = Ok tt.
Proof.
  intros Hord. destruct item as [model_name output_name].
  destruct (exists_in (fs w) (os_path_join output_dir output_name)) eqn:Hex.
  - by rewrite batch_item_found.
  - destruct (convert_cross_encoder_to_onnx env model_name
                (os_path_join output_dir output_name) default_max_length
                default_opset_version w) as [[[]|e] w'] eqn:Hrun.
    + by rewrite (batch_item_converted _ _ _ _ _ Hex Hrun).
    + rewrite (batch_item_failed _ _ _ _ _ _ Hex Hrun); [done|].
      by eapply raises_only_convert.
Qed.

Lemma batch_loop_returns output_dir l w :
  ordinary_failures env -> fst (batch_loop env output_dir l w) = Ok tt.
Proof.
  intros Hord. revert w. induction l as [|item rest IH]; intros w; [done|].
  simpl. unfold bind. pose proof (batch_item_returns output_dir item w Hord).
  destruct (batch_item env output_dir item w) as [[[]|e] w1]; [apply IH|done].
Qed.

Lemma frames_batch_item output_dir item :
  frames (calls_grow uses_defaults) (batch_item env output_dir item).
Proof.
  destruct item as [model_name output_name]. unfold batch_item.
  apply frames_bind; [apply calls_grow_trans|by intros w; apply calls_grow_refl|].
  intros [|].
  - apply frames_print. intros. apply calls_grow_emit.
  - apply frames_try_except;
      [apply calls_grow_trans|apply frames_convert_defaults|].
    intros e. apply frames_print. intros. apply calls_grow_emit.
Qed.

Lemma frames_batch_loop output_dir l :
  frames (calls_grow uses_defaults) (batch_loop env output_dir l).
Proof.
  induction l as [|item rest IH]; [apply frames_ret, calls_grow_refl|].
  simpl. apply frames_bind;
    [apply calls_grow_trans|apply frames_batch_item|by intros _].
Qed.

Lemma frames_download_and_convert output_dir :
  frames (calls_grow uses_defaults)
    (download_and_convert_popular_models env output_dir).
Proof.
  apply frames_bind; [apply calls_grow_trans| |intros _; apply frames_batch_loop].
  eapply frames_weaken; [apply adds_dirs_calls_grow|apply frames_os_makedirs].
Qed.

Lemma batch_loop_cons output_dir item rest w :
  batch_loop env output_dir (item :: rest) w
  = bind (batch_item env output_dir item)
      (fun _ => batch_loop env output_dir rest) w.
Proof. done. Qed.

(** A loop over pairs that all exist prints one line per pair and does
    nothing else. *)
Lemma batch_loop_all_found output_dir l w :
  (forall item, item ∈ l ->
     exists_in (fs w) (os_path_join output_dir item.2) = true) ->
  batch_loop env output_dir l w
  = (Ok tt, {| fs := fs w;
               stdout := (stdout w ++ map skip_line l.*2)%list;
               calls := calls w |}).
Proof.
  revert w. induction l as [|[model_name output_name] rest IH]; intros w Hall.
  - simpl. rewrite app_nil_r. by destruct w.
  - pose proof (Hall (model_name, output_name) (list_elem_of_here _ _))
      as Hhere.
    rewrite batch_loop_cons.
    rewrite (bind_ok _ _ _ _ _
               (batch_item_found output_dir model_name output_name w Hhere)).
    rewrite IH.
    + simpl. by rewrite <- app_assoc.
    + intros item Hin. simpl. apply Hall. by apply list_elem_of_further.
Qed.

End Batch.

Lemma adds_dirs_exists_in w w' p :
  adds_dirs w w' -> exists_in (fs w) p = true -> exists_in (fs w') p = true.
Proof.
  intros (_ & _ & Hkeep & _). unfold exists_in, lookup_path.
  destruct (negb (nonempty p)); [done|].
  destruct (all_seps p || String.eqb p "."); [done|].
  destruct (fs w !! p) as [n|] eqn:Hp; [|done].
  by rewrite (Hkeep p n Hp).
Qed.

(** ** The script as a whole *)

Lemma script_imports_ok env args w :
  import_error env "torch" = None ->
  import_error env "transformers" = None ->
  import_error env "torch.onnx" = None ->
  script env args w = main env args (after_imports w).
Proof.
  intros Htorch Htrans Honnx.
  unfold script, module_imports, dunder_main, import_module, try_except, bind,
    call.
  by rewrite Htorch, Htrans, Honnx.
Qed.

Lemma sample_env_ordinary : ordinary_failures sample_env.
Proof. by split. Qed.

Lemma failing_tokenizer_loader_ordinary model_name e env :
  isinstance_Exception e = true -> ordinary_failures env ->
  ordinary_failures (failing_tokenizer_loader model_name e env).
Proof.
  intros He Hord. split; try apply Hord. simpl. intros name w e'.
  destruct (String.eqb name model_name).
  - by intros [= <-].
  - apply Hord.
Qed.

(** C2: with libraries whose failures are ordinary errors (instances of
    Exception), a pair whose conversion raises is answered inside the loop:
    the line naming the model and the error message is printed and the loop
    goes on with the next pair.  The loop never raises; the batch driver
    raises only if the output directory cannot be made; and a batch run whose
    directory can be made exits with status 0, whatever happened to the
    pairs. *)
Theorem C2_batch_isolates_failures env :
  ordinary_failures env ->
  (forall output_dir model_name output_name rest w e w',
     exists_in (fs w) (os_path_join output_dir output_name) = false ->
     convert_cross_encoder_to_onnx env model_name
       (os_path_join output_dir output_name) default_max_length
       default_opset_version w = (Raise e, w') ->
     batch_loop env output_dir ((model_name, output_name) :: rest) w
     = batch_loop env output_dir rest
         (emit ("❌ Failed to convert " +:+ model_name +:+ ": " +:+ exn_msg e)
            w')) /\
  (forall output_dir l w, fst (batch_loop env output_dir l w) = Ok tt) /\
  (forall output_dir w e w',
     download_and_convert_popular_models env output_dir w = (Raise e, w') ->
     os_makedirs output_dir true w = (Raise e, w')) /\
  (forall args w,
     arg_download_popular args = true ->
     import_error env "torch" = None ->
     import_error env "transformers" = None ->
     import_error env "torch.onnx" = None ->
     fst (os_makedirs (arg_output_dir args) true w) = Ok tt ->
     exit_status (fst (script env args w)) = 0).
Proof.
  intros Hord. split; [|split; [|split]].
  - intros output_dir model_name output_name rest w e w' Hex Hrun.
    rewrite batch_loop_cons.
    assert (isinstance_Exception e = true) as Hcls
      by by eapply raises_only_convert.
    by rewrite (bind_ok _ _ _ _ _
                  (batch_item_failed env _ _ _ _ _ _ Hex Hrun Hcls)).
  - intros output_dir l w. by apply batch_loop_returns.
  - intros output_dir w e w'. unfold download_and_convert_popular_models, bind.
    destruct (os_makedirs output_dir true w) as [[[]|e1] w1]; [|done].
    pose proof (batch_loop_returns env output_dir models w1 Hord) as Hloop.
    intros Hrun. by rewrite Hrun in Hloop.
  - intros args w Hflag Htorch Htrans Honnx Hdir.
    rewrite script_imports_ok by done. unfold main. rewrite Hflag.
    unfold download_and_convert_popular_models, bind.
    destruct (respects_makedirs_fuel
                (S (String.length (arg_output_dir args)))
                (arg_output_dir args) true w (after_imports w) eq_refl)
      as [Hsame _].
    fold (os_makedirs (arg_output_dir args) true) in Hsame.
    rewrite Hdir in Hsame.
    destruct (os_makedirs (arg_output_dir args) true (after_imports w))
      as [[[]|e1] w1]; [|done].
    by rewrite (batch_loop_returns env _ models w1 Hord).
Qed.

Lemma C2_batch_isolates_failures_witness :
  let r := script env_second_model_missing batch_args empty_world in
  exit_status (fst r) = 0 /\
  "❌ Failed to convert cross-encoder/ms-marco-MiniLM-L12-v2: "
    +:+ exn_msg hub_unreachable ∈ stdout (snd r) /\
  is_Some (fs (snd r) !! "models/ms-marco-MiniLM-L6-v2.onnx") /\
  fs (snd r) !! "models/ms-marco-MiniLM-L12-v2.onnx" = None /\
  is_Some (fs (snd r) !! "models/ms-marco-TinyBERT-L2-v2.onnx").
Proof.
  intros r.
  destruct (C2_batch_isolates_failures env_second_model_missing
              (failing_tokenizer_loader_ordinary
                 "cross-encoder/ms-marco-MiniLM-L12-v2" hub_unreachable
                 sample_env eq_refl sample_env_ordinary))
    as (_ & _ & _ & Hexit).
  split; [apply (Hexit batch_args empty_world); by vm_compute|].
  subst r. vm_compute.
  split; [|split; [eauto|split; [done|eauto]]].
  repeat first [apply list_elem_of_here|apply list_elem_of_further].
Defined.

(** C4: a pair whose destination exists is skipped: the loop prints the
    skip line and moves on, the conversion procedure is not entered and no
    library is called.  Hence a batch run over a directory in which every
    listed destination exists makes no call at all, changes no file (no file
    appears, disappears or changes content) and, unless the directory call
    itself raises, returns after printing the three skip lines. *)
Theorem C4_batch_skips_existing env output_dir w :
  (forall model_name output_name rest v,
     exists_in (fs v) (os_path_join output_dir output_name) = true ->
     batch_loop env output_dir ((model_name, output_name) :: rest) v
     = batch_loop env output_dir rest
         (emit ("⏭️ " +:+ output_name +:+ " already exists, skipping...") v)) /\
  ((forall item, item ∈ models ->
      exists_in (fs w) (os_path_join output_dir item.2) = true) ->
   let r := download_and_convert_popular_models env output_dir w in
   calls (snd r) = calls w /\
   (forall p c, fs (snd r) !! p = Some (File c) <-> fs w !! p = Some (File c)) /\
   (fst r = Ok tt ->
    stdout (snd r) = (stdout w ++ map skip_line models.*2)%list) /\
   (forall e, fst r = Raise e ->
      os_makedirs output_dir true w = (Raise e, snd r))).
Proof.
  split.
  - intros model_name output_name rest v Hex. rewrite batch_loop_cons.
    by rewrite (bind_ok _ _ _ _ _ (batch_item_found env _ _ _ _ Hex)).
  - intros Hall. simpl. unfold download_and_convert_popular_models, bind.
    pose proof (frames_os_makedirs output_dir true w) as Hadd.
    destruct (os_makedirs output_dir true w) as [[[]|e] w1]; simpl in Hadd.
    + rewrite batch_loop_all_found.
      2:{ intros item Hin. eapply adds_dirs_exists_in; [exact Hadd|].
          by apply Hall. }
      destruct Hadd as (Hout & Hcalls & Hkeep & Hfiles). simpl.
      repeat split; [done|apply Hfiles| |by rewrite Hout|done].
      intros Hp. by apply Hkeep.
    + destruct Hadd as (Hout & Hcalls & Hkeep & Hfiles). simpl.
      repeat split; [done|apply Hfiles| |done|by intros e' [= <-]].
      intros Hp. by apply Hkeep.
Qed.

Lemma C4_batch_skips_existing_witness :
  let r := download_and_convert_popular_models sample_env "models"
             after_first_run in
  fst r = Ok tt /\
  calls (snd r) = calls after_first_run /\
  fs (snd r) = fs after_first_run /\
  stdout (snd r) =
    (stdout after_first_run ++
     [ "⏭️ ms-marco-MiniLM-L6-v2.onnx already exists, skipping...";
       "⏭️ ms-marco-MiniLM-L12-v2.onnx already exists, skipping...";
       "⏭️ ms-marco-TinyBERT-L2-v2.onnx already exists, skipping..." ])%list.
Proof.
  intros r.
  destruct (C4_batch_skips_existing sample_env "models" after_first_run)
    as [_ Hrerun].
  destruct Hrerun as (Hcalls & _ & Hout & _).
  - intros item Hin. unfold models in Hin.
    repeat (apply elem_of_cons in Hin as [->|Hin]; [by vm_compute|]).
    by apply elem_of_nil in Hin.
  - assert (fst r = Ok tt) as Hok by (by vm_compute).
    split; [exact Hok|]. split; [exact Hcalls|].
    split; [by vm_compute|]. exact (Hout Hok).
Defined.

(** ** Batch mode and the single-model arguments *)

(** C10: with the batch flag set, two runs that agree on the output
    directory run identically whatever --model, --output and --max-length
    are: same outcome, same final world, hence the same conversions in the
    same order.  Every conversion entered by a batch run was called with
    max_length 512 and opset version 14. *)
Theorem C10_batch_ignores_single_mode_args env args1 args2 w :
  arg_download_popular args1 = true ->
  arg_download_popular args2 = true ->
  arg_output_dir args1 = arg_output_dir args2 ->
  script env args1 w = script env args2 w /\
  main env args1 w = main env args2 w /\
  exists made,
    calls (snd (main env args1 w)) = (calls w ++ made)%list /\
    forall model_name output_path max_length opset_version,
      CallConvert model_name output_path max_length opset_version ∈ made ->
      max_length = 512 /\ opset_version = 14.
Proof.
  intros Hflag1 Hflag2 Hdir. split; [|split].
  - unfold script, dunder_main, main. by rewrite Hflag1, Hflag2, Hdir.
  - unfold main. by rewrite Hflag1, Hflag2, Hdir.
  - unfold main. rewrite Hflag1.
    destruct (frames_download_and_convert env (arg_output_dir args1) w)
      as (made & Hcalls & Hall).
    exists made. split; [exact Hcalls|].
    intros model_name output_path max_length opset_version Hin.
    rewrite Forall_forall in Hall. exact (Hall _ Hin).
Qed.

Lemma C10_batch_ignores_single_mode_args_witness :
  script sample_env batch_args empty_world
  = script sample_env other_batch_args empty_world /\
  List.filter is_convert
    (calls (snd (main sample_env other_batch_args empty_world)))
  = [ CallConvert "cross-encoder/ms-marco-MiniLM-L6-v2"
        "models/ms-marco-MiniLM-L6-v2.onnx" 512 14;
      CallConvert "cross-encoder/ms-marco-MiniLM-L12-v2"
        "models/ms-marco-MiniLM-L12-v2.onnx" 512 14;
      CallConvert "cross-encoder/ms-marco-TinyBERT-L-2-v2"
        "models/ms-marco-TinyBERT-L2-v2.onnx" 512 14 ].
Proof.
  destruct (C10_batch_ignores_single_mode_args sample_env batch_args
              other_batch_args empty_world eq_refl eq_refl eq_refl)
    as (Hscript & _ & _).
  split; [exact Hscript|]. by vm_compute.
Defined.

(** ** Single-model mode and the output directory *)

(** C9, as the claim states it, fails in its second half: an --output whose
    parent path is an existing regular file has a non-empty parent, yet
    [os.makedirs] raises FileExistsError and the conversion is not called. *)
Lemma C9_counterexample :
  ~ (forall env args w,
       arg_download_popular args = false ->
       os_path_dirname (arg_output args) ≠ "" ->
       exists w1,
         os_makedirs (os_path_dirname (arg_output args)) true w = (Ok tt, w1) /\
         main env args w
         = convert_cross_encoder_to_onnx env (arg_model args) (arg_output args)
             (arg_max_length args) default_opset_version w1).
Proof.
  intros Hclaim.
  destruct (Hclaim sample_env
              (single_args "models/cross-encoder.onnx/refined.onnx")
              stale_world eq_refl) as (w1 & Hdir & _).
  - by vm_compute.
  - revert Hdir. by vm_compute.
Qed.

(** C9, amended: in single-model mode an --output without a separator has
    the empty string for parent; [os.makedirs] raises FileNotFoundError on it
    and the run ends there, in the world it started in, the conversion
    procedure never entered.  An --output with a separator has a non-empty
    parent, and the conversion is called exactly when [os.makedirs] returns:
    it then runs with the given model, path and length and the default opset
    in a world where the parent is a directory and only directories were
    added; when [os.makedirs] raises (the parent or one of its ancestors is a
    regular file, say) that exception ends the run and the conversion is
    never entered. *)
Theorem C9_output_directory env args w :
  arg_download_popular args = false ->
  let parent := os_path_dirname (arg_output args) in
  (has_sep (arg_output args) = false ->
   parent = "" /\
   main env args w = (Raise (mkExn FileNotFoundError ""), w)) /\
  (has_sep (arg_output args) = true ->
   parent ≠ "" /\
   (forall w1,
      os_makedirs parent true w = (Ok tt, w1) ->
      main env args w
      = convert_cross_encoder_to_onnx env (arg_model args) (arg_output args)
          (arg_max_length args) 14 w1 /\
      adds_dirs w w1 /\
      (isdir_in (fs w1) parent = true \/ makedirs_tail parent = ".")) /\
   (forall e w1,
      os_makedirs parent true w = (Raise e, w1) ->
      main env args w = (Raise e, w1) /\ calls w1 = calls w)).
Proof.
  intros Hflag parent. unfold main. rewrite Hflag. fold parent. split.
  - intros Hsep. apply os_path_dirname_empty in Hsep. fold parent in Hsep.
    split; [exact Hsep|]. rewrite Hsep. unfold bind.
    by rewrite os_makedirs_empty.
  - intros Hsep. split.
    { intros Hempty. apply os_path_dirname_empty in Hempty. congruence. }
    pose proof (frames_os_makedirs parent true w) as Hadd.
    split.
    + intros w1 Hdir. rewrite Hdir in Hadd. simpl in Hadd.
      split; [by rewrite (bind_ok _ _ _ _ _ Hdir)|].
      split; [exact Hadd|]. by eapply os_makedirs_ok_isdir.
    + intros e w1 Hdir. rewrite Hdir in Hadd. simpl in Hadd.
      split; [by rewrite (bind_raise _ _ _ _ _ Hdir)|]. apply Hadd.
Qed.

Lemma C9_output_directory_witness :
  (* no directory part *)
  main sample_env (single_args "model.onnx") sample_world
  = (Raise (mkExn FileNotFoundError ""), sample_world) /\
  (* a parent that has to be made *)
  (let r := main sample_env default_args empty_world in
   fst r = Ok tt /\
   fs (snd r) !! "models" = Some Dir /\
   is_Some (fs (snd r) !! "models/cross-encoder.onnx")) /\
  (* a parent that is a file *)
  (let r := main sample_env
              (single_args "models/cross-encoder.onnx/refined.onnx")
              stale_world in
   fst r = Raise (mkExn FileExistsError "models/cross-encoder.onnx") /\
   calls (snd r) = []).
Proof.
  split; [|split].
  - destruct (C9_output_directory sample_env (single_args "model.onnx")
                sample_world eq_refl) as [Hnone _].
    exact (proj2 (Hnone eq_refl)).
  - destruct (C9_output_directory sample_env default_args empty_world eq_refl)
      as [_ Hsome].
    destruct (Hsome eq_refl) as (_ & Hmade & _).
    destruct (Hmade (snd (os_makedirs "models" true empty_world)))
      as (Hrun & _ & _); [by vm_compute|].
    simpl. rewrite Hrun. vm_compute. eauto.
  - destruct (C9_output_directory sample_env
                (single_args "models/cross-encoder.onnx/refined.onnx")
                stale_world eq_refl) as [_ Hsome].
    destruct (Hsome eq_refl) as (_ & _ & Hfail).
    destruct (Hfail (mkExn FileExistsError "models/cross-encoder.onnx")
                stale_world) as (Hrun & _); [by vm_compute|].
    simpl. by rewrite Hrun.
Defined.

(** ** The dependency check *)

(** The imports of lines 10-12 run before the check of lines 175-181: a
    library that cannot be imported ends the script there, with the import's
    own exception and nothing printed. *)
Lemma missing_library_traceback env args w e :
  import_error env "torch" = Some e \/
  (import_error env "torch" = None /\ import_error env "transformers" = Some e) ->
  exists w',
    script env args w = (Raise e, w') /\
    stdout w' = stdout w /\ fs w' = fs w.
Proof.
  unfold script, module_imports, import_module, bind, call.
  intros [Htorch|[Htorch Htrans]].
  - rewrite Htorch. by eexists.
  - rewrite Htorch, Htrans. by eexists.
Qed.

(** The handler of the dependency check is dead code: when the script gets
    as far as the check, both imports succeed again. *)
Lemma dependency_check_passes env args w :
  import_error env "torch" = None ->
  import_error env "transformers" = None ->
  dunder_main env args w
  = main env args
      (note (CallImport "torch") (note (CallImport "transformers") w)).
Proof.
  intros Htorch Htrans.
  unfold dunder_main, try_except, import_module, bind, call.
  by rewrite Htrans, Htorch.
Qed.

(** C3 (defect): run without torch, the script stops at line 10 with the
    ModuleNotFoundError of the import: the interpreter exits with status 1
    and no conversion is attempted, but nothing was printed, so the guidance
    message of lines 179-180 never appears; the same without transformers. *)
Theorem C3_missing_library_prints_no_guidance :
  (let r := script env_without_torch default_args empty_world in
   fst r = Raise (no_module "torch") /\
   exit_status (fst r) = 1 /\
   stdout (snd r) = [] /\
   calls (snd r) = [CallImport "torch"]) /\
  (let r := script env_without_transformers default_args empty_world in
   fst r = Raise (no_module "transformers") /\
   exit_status (fst r) = 1 /\
   stdout (snd r) = [] /\
   calls (snd r) = [CallImport "torch"; CallImport "transformers"]).
Proof. by vm_compute. Qed.


(** * Further properties of the script *)

(** ** What a successful conversion has done *)

Section ConvertDetails.

Variable env : Env.

(** A loading stage that returns has asked the hub for the tokenizer, then
    for the model, and has tokenized the dummy pair. *)
Lemma load_stage_ok model_name max_length w model inputs w1 :
  load_stage env model_name max_length w = (Ok (model, inputs), w1) ->
  let wA := emit ("Loading model: " +:+ model_name) w in
  let wB := note (CallTokenizerFromPretrained model_name) wA in
  let wC := note (CallModelFromPretrained model_name) wB in
  exists tok loaded,
    AutoTokenizer_from_pretrained env model_name wA = Ok tok /\
    AutoModel_from_pretrained env model_name wB = Ok loaded /\
    tokenizer_call env tok dummy_query dummy_doc max_length wC = Ok inputs /\
    model = eval loaded /\
    w1 = note (CallTokenizer max_length) wC.
Proof.
  unfold load_stage, bind, print, call. simpl.
  destruct (AutoTokenizer_from_pretrained env model_name _) as [tok|e] eqn:Htok;
    simpl; [|done].
  destruct (AutoModel_from_pretrained env model_name _) as [loaded|e] eqn:Hmod;
    simpl; [|done].
  destruct (tokenizer_call env tok dummy_query dummy_doc max_length _)
    as [enc|e] eqn:Henc; simpl; [|done].
  intros [= <- <- <-]. by exists tok, loaded.
Qed.

(** Whatever the verification stage does, it first tries the import, and
    then calls at most the session constructor and one run, in this order. *)
Lemma verify_stage_calls inputs output_path w :
  exists rest,
    calls (snd (verify_stage env inputs output_path w))
    = (calls w ++ CallImport "onnxruntime" :: rest)%list /\
    rest `prefix_of`
      [CallInferenceSession output_path; CallSessionRun output_path].
Proof.
  unfold verify_stage, try_except, verify_body, verify_skipped, import_module,
    bind, call, print, getitem, list_getitem. simpl.
  assert ([] `prefix_of`
            [CallInferenceSession output_path; CallSessionRun output_path])
    as Hnone by apply prefix_nil.
  assert ([CallInferenceSession output_path] `prefix_of`
            [CallInferenceSession output_path; CallSessionRun output_path])
    as Hone by (by exists [CallSessionRun output_path]).
  assert ([CallInferenceSession output_path; CallSessionRun output_path]
            `prefix_of`
            [CallInferenceSession output_path; CallSessionRun output_path])
    as Hboth by done.
  destruct (import_error env "onnxruntime") as [e|]; simpl.
  { exists []. destruct (isinstance_ImportError e); by split. }
  destruct (InferenceSession env output_path _) as [sess|e]; simpl.
  2:{ exists [CallInferenceSession output_path].
      destruct (isinstance_ImportError e); simpl;
        (split; [by rewrite <- app_assoc|done]). }
  destruct (inputs !! "input_ids") as [ids|]; simpl.
  2:{ exists [CallInferenceSession output_path].
      split; [by rewrite <- app_assoc|done]. }
  destruct (inputs !! "attention_mask") as [mask|]; simpl.
  2:{ exists [CallInferenceSession output_path].
      split; [by rewrite <- app_assoc|done]. }
  destruct (inputs !! "token_type_ids") as [types|]; simpl.
  2:{ exists [CallInferenceSession output_path].
      split; [by rewrite <- app_assoc|done]. }
  exists [CallInferenceSession output_path; CallSessionRun output_path].
  split; [|done].
  destruct (session_run env sess _ _) as [outputs|e]; simpl.
  - destruct (outputs !! 0%nat); simpl; by rewrite <- !app_assoc.
  - destruct (isinstance_ImportError e); simpl; by rewrite <- !app_assoc.
Qed.

(** The loading stage prints its one line whether it returns or raises. *)
Lemma load_stage_stdout model_name max_length w :
  stdout (snd (load_stage env model_name max_length w))
  = (stdout w ++ ["Loading model: " +:+ model_name])%list.
Proof.
  unfold load_stage, bind, print, call. simpl.
  destruct (AutoTokenizer_from_pretrained env model_name _); simpl; [|done].
  destruct (AutoModel_from_pretrained env model_name _); simpl; [|done].
  by destruct (tokenizer_call env _ dummy_query dummy_doc max_length _).
Qed.

(** An export stage that raises has printed its first line only. *)
Lemma export_stage_raise_stdout model inputs output_path max_length
    opset_version w e w2 :
  export_stage env model inputs output_path max_length opset_version w
    = (Raise e, w2) ->
  stdout w2 = (stdout w ++ ["Converting to ONNX format..."])%list.
Proof.
  unfold export_stage, bind, print, getitem, onnx_export. simpl.
  destruct (inputs !! "input_ids") as [ids|]; [|by intros [= _ <-]]. simpl.
  destruct (inputs !! "attention_mask") as [mask|]; [|by intros [= _ <-]].
  simpl.
  destruct (inputs !! "token_type_ids") as [types|]; [|by intros [= _ <-]].
  simpl.
  destruct (onnx_export_error env _ _) eqn:Herr; [by intros [= _ <-]|done].
Qed.

End ConvertDetails.

(** X1: the graph a successful conversion leaves at the output path was
    exported from the model the hub returned for the given name, switched to
    evaluation mode whatever mode it was loaded in, with its parameters
    embedded, for the requested opset, traced on the three tensors the
    tokenizer of that name produced for the fixed query and document at the
    requested maximum length. *)
Theorem convert_exports_eval_model env model_name output_path max_length
    opset_version w w' :
  convert_cross_encoder_to_onnx env model_name output_path max_length
    opset_version w = (Ok tt, w') ->
  let w0 :=
    note (CallConvert model_name output_path max_length opset_version) w in
  let wA := emit ("Loading model: " +:+ model_name) w0 in
  let wB := note (CallTokenizerFromPretrained model_name) wA in
  let wC := note (CallModelFromPretrained model_name) wB in
  exists tok loaded inputs ids mask types,
    AutoTokenizer_from_pretrained env model_name wA = Ok tok /\
    AutoModel_from_pretrained env model_name wB = Ok loaded /\
    tokenizer_call env tok "What is machine learning?"
      "Machine learning is a subset of artificial intelligence."
      max_length wC = Ok inputs /\
    inputs !! "input_ids" = Some ids /\
    inputs !! "attention_mask" = Some mask /\
    inputs !! "token_type_ids" = Some types /\
    exists req,
      fs w' !! output_path = Some (File (OnnxGraph req)) /\
      hub_name (exp_model req) = hub_name loaded /\
      num_labels (exp_model req) = num_labels loaded /\
      training (exp_model req) = false /\
      exp_args req = (ids, mask, types) /\
      exp_path req = output_path /\
      exp_export_params req = true /\
      exp_opset_version req = opset_version.
Proof.
  intros Hrun w0 wA wB wC.
  destruct (convert_ok env _ _ _ _ _ _ Hrun)
    as (model & inputs & w1 & w2 & ids & mask & types
        & Hload & _ & _ & Hids & Hmask & Htypes & Hfs).
  destruct (load_stage_ok env _ _ _ _ _ _ Hload)
    as (tok & loaded & Htok & Hmod & Henc & -> & _).
  exists tok, loaded, inputs, ids, mask, types.
  repeat (split; [done|]).
  eexists. split; [rewrite Hfs; apply lookup_insert_eq|]. done.
Qed.

Lemma convert_exports_eval_model_witness :
  exists req,
    fs (snd (convert_cross_encoder_to_onnx sample_env
               "cross-encoder/ms-marco-MiniLM-L6-v2" "models/cross-encoder.onnx"
               8 14 sample_world))
      !! "models/cross-encoder.onnx" = Some (File (OnnxGraph req)) /\
    training (exp_model req) = false /\
    exp_opset_version req = 14 /\
    exp_args req = (mkTensor [1; 8] (replicate 8 0),
                    mkTensor [1; 8] (replicate 8 0),
                    mkTensor [1; 8] (replicate 8 0)).
Proof.
  destruct (convert_exports_eval_model sample_env
              "cross-encoder/ms-marco-MiniLM-L6-v2" "models/cross-encoder.onnx"
              8 14 sample_world
              (snd (convert_cross_encoder_to_onnx sample_env
                      "cross-encoder/ms-marco-MiniLM-L6-v2"
                      "models/cross-encoder.onnx" 8 14 sample_world)))
    as (tok & loaded & inputs & ids & mask & types & _ & _ & Henc
        & Hids & Hmask & Htypes & req & Hfile & _ & _ & Htrain & Hargs & _
        & _ & Hopset).
  - by vm_compute.
  - exists req. split; [exact Hfile|]. split; [exact Htrain|].
    split; [exact Hopset|]. rewrite Hargs.
    injection Henc as <-.
    revert Hids Hmask Htypes. vm_compute. by intros [= <-] [= <-] [= <-].
Defined.

(** X2: a conversion that returns normally has called, once each and in
    this order: the tokenizer loader, the model loader, the tokenizer at the
    requested maximum length, the exporter for the output path and the
    import of onnxruntime; after these it has called at most the session
    constructor and then one inference run, and nothing else. *)
Theorem convert_call_order env model_name output_path max_length
    opset_version w w' :
  convert_cross_encoder_to_onnx env model_name output_path max_length
    opset_version w = (Ok tt, w') ->
  exists rest,
    calls w' =
      (calls w ++
       [ CallConvert model_name output_path max_length opset_version;
         CallTokenizerFromPretrained model_name;
         CallModelFromPretrained model_name;
         CallTokenizer max_length;
         CallOnnxExport output_path;
         CallImport "onnxruntime" ] ++ rest)%list /\
    rest `prefix_of`
      [CallInferenceSession output_path; CallSessionRun output_path].
Proof.
  intros Hrun.
  destruct (convert_ok env _ _ _ _ _ _ Hrun)
    as (model & inputs & w1 & w2 & ids & mask & types
        & Hload & Hexp & Hver & _).
  destruct (load_stage_ok env _ _ _ _ _ _ Hload)
    as (tok & loaded & _ & _ & _ & _ & ->).
  apply export_stage_ok in Hexp as (_ & _ & _ & _ & _ & _ & _ & _ & _ & Hcalls).
  destruct (verify_stage_calls env inputs output_path w2)
    as (rest & Hrest & Hprefix).
  rewrite Hver in Hrest. simpl in Hrest, Hcalls.
  exists rest. split; [|exact Hprefix].
  rewrite Hrest, Hcalls. by rewrite <- !app_assoc.
Qed.

Lemma convert_call_order_witness :
  let name := "cross-encoder/ms-marco-MiniLM-L6-v2" in
  let path := "models/cross-encoder.onnx" in
  exists rest,
    calls (snd (convert_cross_encoder_to_onnx env_without_onnxruntime name path
                  8 14 sample_world)) =
      ([ CallConvert name path 8 14; CallTokenizerFromPretrained name;
         CallModelFromPretrained name; CallTokenizer 8; CallOnnxExport path;
         CallImport "onnxruntime" ] ++ rest)%list /\
    rest `prefix_of` [CallInferenceSession path; CallSessionRun path].
Proof.
  intros name path.
  destruct (convert_call_order env_without_onnxruntime name path 8 14
              sample_world
              (snd (convert_cross_encoder_to_onnx env_without_onnxruntime
                      name path 8 14 sample_world)))
    as (rest & Hcalls & Hprefix); [by vm_compute|].
  exists rest. split; [exact Hcalls|exact Hprefix].
Defined.

(** X3: the line [✅ Model saved to: path] is never printed in vain: if a
    run of the procedure, however it ends, has added that line to standard
    output, then the exported graph is at the output path in the world the
    run leaves. *)
Theorem saved_line_truthful env model_name output_path max_length
    opset_version w added :
  let w' :=
    snd (convert_cross_encoder_to_onnx env model_name output_path max_length
           opset_version w) in
  stdout w' = (stdout w ++ added)%list ->
  "✅ Model saved to: " +:+ output_path ∈ added ->
  exists req,
    exp_path req = output_path /\
    fs w' !! output_path = Some (File (OnnxGraph req)).
Proof.
  simpl. rewrite convert_stages.
  set (w0 := note (CallConvert model_name output_path max_length
                     opset_version) w).
  pose proof (load_stage_stdout env model_name max_length w0) as Hout1.
  pose proof (frames_load_stage env model_name max_length w0) as Hfs1.
  destruct (load_stage env model_name max_length w0)
    as [[[model inputs]|e] w1]; simpl in *.
  2:{ rewrite Hout1. intros <-%app_inv_head Hin.
      apply list_elem_of_singleton in Hin. discriminate Hin. }
  destruct (export_stage env model inputs _ _ _ w1) as [[[]|e] w2] eqn:Hexp.
  - intros _ _.
    apply export_stage_ok in Hexp
      as (ids & mask & types & _ & _ & _ & _ & Hfs & _).
    pose proof (frames_verify_stage env inputs output_path w2) as Hfs3.
    unfold keeps_fs in *. eexists. split; [|rewrite Hfs3, Hfs;
                                             apply lookup_insert_eq].
    done.
  - apply export_stage_raise_stdout in Hexp. simpl. rewrite Hexp, Hout1.
    rewrite <- app_assoc. intros <-%app_inv_head Hin.
    apply elem_of_cons in Hin as [Hin|Hin]; [discriminate Hin|].
    apply list_elem_of_singleton in Hin. discriminate Hin.
Qed.

Lemma saved_line_truthful_witness :
  let r := convert_cross_encoder_to_onnx
             (failing_session invalid_graph sample_env)
             "cross-encoder/ms-marco-MiniLM-L6-v2" "models/cross-encoder.onnx"
             8 14 sample_world in
  fst r = Raise invalid_graph /\
  exists req, fs (snd r) !! "models/cross-encoder.onnx"
              = Some (File (OnnxGraph req)).
Proof.
  simpl. split; [by vm_compute|].
  destruct (saved_line_truthful (failing_session invalid_graph sample_env)
              "cross-encoder/ms-marco-MiniLM-L6-v2" "models/cross-encoder.onnx"
              8 14 sample_world
              (stdout (snd (convert_cross_encoder_to_onnx
                              (failing_session invalid_graph sample_env)
                              "cross-encoder/ms-marco-MiniLM-L6-v2"
                              "models/cross-encoder.onnx" 8 14 sample_world))))
    as (req & _ & Hfile).
  - by vm_compute.
  - vm_compute. do 2 apply list_elem_of_further. apply list_elem_of_here.
  - by exists req.
Defined.

(** ** Entries into the procedure, lines printed, nodes kept *)

Lemma same_conversions_refl w : same_conversions w w.
Proof. done. Qed.

Lemma same_conversions_trans w1 w2 w3 :
  same_conversions w1 w2 -> same_conversions w2 w3 -> same_conversions w1 w3.
Proof. unfold same_conversions. congruence. Qed.

Lemma same_conversions_note c w :
  is_convert c = false -> same_conversions w (note c w).
Proof.
  intros Hc. unfold same_conversions. simpl.
  rewrite List.filter_app. simpl. rewrite Hc. apply app_nil_r.
Qed.

Lemma calls_grow_weaken (P1 P2 : Call -> Prop) w w' :
  (forall c, P1 c -> P2 c) -> calls_grow P1 w w' -> calls_grow P2 w w'.
Proof.
  intros Himpl (made & Hcalls & Hall). exists made. split; [done|].
  eapply Forall_impl; [exact Hall|exact Himpl].
Qed.

Lemma lines_grow_refl P w : lines_grow P w w.
Proof. exists []. by rewrite app_nil_r. Qed.

Lemma lines_grow_trans P w1 w2 w3 :
  lines_grow P w1 w2 -> lines_grow P w2 w3 -> lines_grow P w1 w3.
Proof.
  intros (m1 & H1 & HP1) (m2 & H2 & HP2). exists (m1 ++ m2)%list.
  split; [by rewrite H2, H1, app_assoc|by apply Forall_app].
Qed.

Lemma lines_grow_emit (P : string -> Prop) line w :
  P line -> lines_grow P w (emit line w).
Proof. intros Hline. exists [line]. split; [done|]. by constructor. Qed.

Lemma lines_grow_note P c w : lines_grow P w (note c w).
Proof. exists []. simpl. by rewrite app_nil_r. Qed.

Lemma adds_dirs_lines_grow P w w' : adds_dirs w w' -> lines_grow P w w'.
Proof. intros (Hout & _). exists []. by rewrite app_nil_r. Qed.

Lemma keeps_nodes_refl w : keeps_nodes w w.
Proof. by intros p n. Qed.

Lemma keeps_nodes_trans w1 w2 w3 :
  keeps_nodes w1 w2 -> keeps_nodes w2 w3 -> keeps_nodes w1 w3.
Proof. intros H1 H2 p n Hp. by apply H2, H1. Qed.

Lemma adds_dirs_keeps_nodes w w' : adds_dirs w w' -> keeps_nodes w w'.
Proof. by intros (_ & _ & Hkeep & _). Qed.

Lemma keeps_nodes_exists_in w w' p :
  keeps_nodes w w' -> exists_in (fs w) p = true -> exists_in (fs w') p = true.
Proof.
  intros Hkeep. unfold exists_in, lookup_path.
  destruct (negb (nonempty p)); [done|].
  destruct (all_seps p || String.eqb p "."); [done|].
  destruct (fs w !! p) as [n|] eqn:Hp; [|done].
  by rewrite (Hkeep p n Hp).
Qed.

(** Facts on joined paths. *)
Lemma append_length a b :
  String.length (a +:+ b) = (String.length a + String.length b)%nat.
Proof. induction a as [|c a IH]; simpl; [done|]. by rewrite IH. Qed.

Lemma append_nonempty_r a b : nonempty b = true -> nonempty (a +:+ b) = true.
Proof. by destruct a. Qed.

Lemma os_path_join_nonempty a b :
  nonempty b = true -> nonempty (os_path_join a b) = true.
Proof.
  intros Hb. unfold os_path_join.
  destruct (starts_with_sep b); [done|].
  destruct (negb (nonempty a) || ends_with_sep a);
    [by apply append_nonempty_r|].
  apply append_nonempty_r. by apply append_nonempty_r.
Qed.

Lemma exists_in_insert_file (f : gmap string Node) p c :
  nonempty p = true -> exists_in (<[p := File c]> f) p = true.
Proof.
  unfold exists_in, lookup_path. intros ->. simpl.
  destruct (all_seps p || String.eqb p "."); [done|].
  by rewrite lookup_insert_eq.
Qed.

Local Ltac not_a_guidance_line :=
  unfold not_guidance, guidance;
  let H := fresh in
  intros H; repeat (apply elem_of_cons in H as [H|H]; [discriminate H|]);
  by apply elem_of_nil in H.

Section WholeRun.

Variable env : Env.

Lemma frames_convert_calls (P : Call -> Prop) model_name output_path
    max_length opset_version :
  P (CallConvert model_name output_path max_length opset_version) ->
  (forall c, is_convert c = false -> P c) ->
  frames (calls_grow P)
    (convert_cross_encoder_to_onnx env model_name output_path max_length
       opset_version).
Proof.
  intros Hentry Hother.
  unfold convert_cross_encoder_to_onnx, load_stage, export_stage, verify_stage,
    verify_body, verify_skipped, import_module.
  apply frames_bind; [apply calls_grow_trans| |intros _].
  { intros w. by apply calls_grow_note. }
  repeat first
    [ apply frames_bind; [apply calls_grow_trans| |intros ?]
    | apply frames_try_except; [apply calls_grow_trans| |intros ?]
    | apply frames_print; intros; apply calls_grow_emit
    | apply frames_call; intros; by apply calls_grow_note, Hother
    | apply frames_getitem; apply calls_grow_refl
    | apply frames_list_getitem; apply calls_grow_refl
    | apply frames_ret; apply calls_grow_refl
    | match goal with
      | |- frames _ (let (_, _) := ?p in _) => destruct p
      end ].
  intros w. unfold onnx_export.
  destruct (onnx_export_error env _ w); by apply calls_grow_note, Hother.
Qed.

(** One run of the procedure is one entry in the trace. *)
Lemma convert_conversions model_name output_path max_length opset_version w :
  List.filter is_convert
    (calls (snd (convert_cross_encoder_to_onnx env model_name output_path
                   max_length opset_version w)))
  = (List.filter is_convert (calls w)
     ++ [CallConvert model_name output_path max_length opset_version])%list.
Proof.
  assert (frames same_conversions
            (let* loaded := load_stage env model_name max_length in
             let (model, inputs) := loaded : Model * gmap string Tensor in
             export_stage env model inputs output_path max_length
               opset_version ;;
             verify_stage env inputs output_path)) as Hrest.
  { unfold load_stage, export_stage, verify_stage, verify_body,
      verify_skipped, import_module.
    repeat first
      [ apply frames_bind; [apply same_conversions_trans| |intros ?]
      | apply frames_try_except; [apply same_conversions_trans| |intros ?]
      | apply frames_print; by intros
      | apply frames_call; intros; by apply same_conversions_note
      | apply frames_getitem; apply same_conversions_refl
      | apply frames_list_getitem; apply same_conversions_refl
      | apply frames_ret; apply same_conversions_refl
      | match goal with
        | |- frames _ (let (_, _) := ?p in _) => destruct p
        end ].
    intros w1. unfold onnx_export.
    destruct (onnx_export_error env _ w1); by apply same_conversions_note. }
  unfold convert_cross_encoder_to_onnx, bind at 1.
  rewrite (Hrest (note (CallConvert model_name output_path max_length
                          opset_version) w)).
  simpl. by rewrite List.filter_app.
Qed.

Lemma frames_convert_lines model_name output_path max_length opset_version :
  frames (lines_grow not_guidance)
    (convert_cross_encoder_to_onnx env model_name output_path max_length
       opset_version).
Proof.
  unfold convert_cross_encoder_to_onnx, load_stage, export_stage, verify_stage,
    verify_body, verify_skipped, import_module.
  apply frames_bind; [apply lines_grow_trans| |intros _].
  { intros w. apply lines_grow_note. }
  repeat first
    [ apply frames_bind; [apply lines_grow_trans| |intros ?]
    | apply frames_try_except; [apply lines_grow_trans| |intros ?]
    | apply frames_print; intros; apply lines_grow_emit; not_a_guidance_line
    | apply frames_call; intros; apply lines_grow_note
    | apply frames_getitem; apply lines_grow_refl
    | apply frames_list_getitem; apply lines_grow_refl
    | apply frames_ret; apply lines_grow_refl
    | match goal with
      | |- frames _ (let (_, _) := ?p in _) => destruct p
      end ].
  intros w. unfold onnx_export.
  destruct (onnx_export_error env _ w); apply lines_grow_note.
Qed.

Lemma frames_main_lines args : frames (lines_grow not_guidance) (main env args).
Proof.
  unfold main. destruct (arg_download_popular args).
  - unfold download_and_convert_popular_models.
    apply frames_bind; [apply lines_grow_trans| |intros _].
    { eapply frames_weaken; [apply adds_dirs_lines_grow|].
      apply frames_os_makedirs. }
    induction models as [|[model_name output_name] rest IH];
      [apply frames_ret, lines_grow_refl|].
    simpl. apply frames_bind; [apply lines_grow_trans| |by intros _].
    unfold batch_item.
    apply frames_bind;
      [apply lines_grow_trans|by intros w; apply lines_grow_refl|].
    intros [|].
    + apply frames_print. intros. apply lines_grow_emit. not_a_guidance_line.
    + apply frames_try_except;
        [apply lines_grow_trans|apply frames_convert_lines|].
      intros e. apply frames_print. intros. apply lines_grow_emit.
      not_a_guidance_line.
  - apply frames_bind;
      [apply lines_grow_trans| |intros _; apply frames_convert_lines].
    eapply frames_weaken; [apply adds_dirs_lines_grow|].
    apply frames_os_makedirs.
Qed.

(** The script, by which import fails first. *)
Lemma script_cases args w :
  (exists e w', script env args w = (Raise e, w') /\
                (exists module, import_error env module = Some e) /\
                stdout w' = stdout w /\ fs w' = fs w /\
                same_conversions w w') \/
  (import_error env "torch" = None /\
   import_error env "transformers" = None /\
   import_error env "torch.onnx" = None /\
   script env args w = main env args (after_imports w)).
Proof.
  destruct (import_error env "torch") as [e|] eqn:Htorch.
  { left. exists e, (note (CallImport "torch") w).
    unfold script, module_imports, import_module, bind, call.
    rewrite Htorch. repeat split; eauto;
      unfold same_conversions; simpl; rewrite ?List.filter_app; simpl;
      by rewrite ?app_nil_r. }
  destruct (import_error env "transformers") as [e|] eqn:Htrans.
  { left. eexists e, _.
    unfold script, module_imports, import_module, bind, call.
    rewrite Htorch, Htrans. repeat split; eauto;
      unfold same_conversions; simpl; rewrite ?List.filter_app; simpl;
      by rewrite ?app_nil_r. }
  destruct (import_error env "torch.onnx") as [e|] eqn:Honnx.
  { left. eexists e, _.
    unfold script, module_imports, import_module, bind, call.
    rewrite Htorch, Htrans, Honnx. repeat split; eauto;
      unfold same_conversions; simpl; rewrite ?List.filter_app; simpl;
      by rewrite ?app_nil_r. }
  right. repeat split; try done. by apply script_imports_ok.
Qed.

End WholeRun.


(** ** Single-model mode *)

(** X4: in single-model mode nothing stands between the conversion and the
    process: once the imports have succeeded and the parent directory is
    there, the outcome of the script is the outcome of the one conversion it
    enters, called with the given model, output path and maximum length and
    opset 14.  The script exits with status 0 when that conversion returns
    and with status 1 when it raises an ordinary error. *)
Theorem single_mode_outcome env args w w1 :
  arg_download_popular args = false ->
  import_error env "torch" = None ->
  import_error env "transformers" = None ->
  import_error env "torch.onnx" = None ->
  os_makedirs (os_path_dirname (arg_output args)) true (after_imports w)
    = (Ok tt, w1) ->
  let run :=
    convert_cross_encoder_to_onnx env (arg_model args) (arg_output args)
      (arg_max_length args) 14 w1 in
  script env args w = run /\
  List.filter is_convert (calls (snd (script env args w)))
  = (List.filter is_convert (calls w)
     ++ [CallConvert (arg_model args) (arg_output args)
           (arg_max_length args) 14])%list /\
  (fst run = Ok tt -> exit_status (fst (script env args w)) = 0) /\
  (forall e, fst run = Raise e -> isinstance_Exception e = true ->
             exit_status (fst (script env args w)) = 1).
Proof.
  intros Hflag Htorch Htrans Honnx Hdir run.
  assert (script env args w = run) as Hscript.
  { rewrite script_imports_ok by done. unfold main. rewrite Hflag.
    by rewrite (bind_ok _ _ _ _ _ Hdir). }
  split; [exact Hscript|]. rewrite Hscript. subst run. split; [|split].
  - rewrite convert_conversions. f_equal.
    pose proof (frames_os_makedirs (os_path_dirname (arg_output args)) true
                  (after_imports w)) as (_ & Hcalls & _).
    rewrite Hdir in Hcalls. simpl in Hcalls. rewrite Hcalls. simpl.
    by rewrite !List.filter_app, !app_nil_r.
  - by intros ->.
  - intros e -> Hcls. simpl. unfold isinstance_Exception in Hcls.
    by destruct (exn_class e).
Qed.

Lemma single_mode_outcome_witness :
  (* the hub has no such model: status 1 *)
  (let r := script (failing_tokenizer_loader
                      (arg_model default_args) hub_unreachable sample_env)
              default_args empty_world in
   fst r = Raise hub_unreachable /\ exit_status (fst r) = 1 /\
   List.filter is_convert (calls (snd r))
   = [CallConvert "cross-encoder/ms-marco-MiniLM-L6-v2"
        "models/cross-encoder.onnx" 512 14]) /\
  (* everything works: status 0 *)
  exit_status (fst (script sample_env default_args empty_world)) = 0.
Proof.
  split.
  - pose (env := failing_tokenizer_loader (arg_model default_args)
                   hub_unreachable sample_env).
    destruct (single_mode_outcome env default_args empty_world
                (snd (os_makedirs "models" true (after_imports empty_world)))
                eq_refl eq_refl eq_refl eq_refl)
      as (Hrun & Hcalls & _ & Hfail); [by vm_compute|].
    fold env. simpl. split; [by vm_compute|].
    split; [apply (Hfail hub_unreachable); by vm_compute|exact Hcalls].
  - destruct (single_mode_outcome sample_env default_args empty_world
                (snd (os_makedirs "models" true (after_imports empty_world)))
                eq_refl eq_refl eq_refl eq_refl)
      as (_ & _ & Hok & _); [by vm_compute|].
    apply Hok. by vm_compute.
Defined.

(** X5: the opset version cannot be chosen from the command line: whatever
    the arguments and the mode, every conversion a run of the script enters
    is called with opset version 14.  In single-model mode it is called with
    the given model, output path and maximum length; in batch mode with
    maximum length 512. *)
Theorem opset_is_fixed env args w :
  exists made,
    calls (snd (script env args w)) = (calls w ++ made)%list /\
    forall model_name output_path max_length opset_version,
      CallConvert model_name output_path max_length opset_version ∈ made ->
      opset_version = 14 /\
      (arg_download_popular args = false ->
       model_name = arg_model args /\ output_path = arg_output args /\
       max_length = arg_max_length args) /\
      (arg_download_popular args = true -> max_length = 512).
Proof.
  set (P := fun c =>
    match c with
    | CallConvert model_name output_path max_length opset_version =>
        opset_version = 14 /\
        (arg_download_popular args = false ->
         model_name = arg_model args /\ output_path = arg_output args /\
         max_length = arg_max_length args) /\
        (arg_download_popular args = true -> max_length = 512)
    | _ => True
    end).
  assert (forall c, is_convert c = false -> P c) as Hother.
  { by intros []. }
  assert (frames (calls_grow P) (script env args)) as Hframe.
  { unfold script, module_imports, dunder_main, import_module, sys_exit.
    repeat first
      [ apply frames_bind; [apply calls_grow_trans| |intros ?]
      | apply frames_try_except; [apply calls_grow_trans| |intros ?]
      | apply frames_print; intros; apply calls_grow_emit
      | apply frames_call; intros; by apply calls_grow_note, Hother
      | apply frames_raise; apply calls_grow_refl ].
    unfold main. destruct (arg_download_popular args) eqn:Hflag.
    - eapply frames_weaken; [|apply frames_download_and_convert].
      intros v v'. apply calls_grow_weaken. intros []; try done.
      intros [-> ->]. by repeat split.
    - apply frames_bind; [apply calls_grow_trans| |intros _].
      + eapply frames_weaken; [apply adds_dirs_calls_grow|].
        apply frames_os_makedirs.
      + apply frames_convert_calls; [|exact Hother]. by repeat split. }
  destruct (Hframe w) as (made & Hcalls & Hall). exists made.
  split; [exact Hcalls|].
  intros model_name output_path max_length opset_version Hin.
  rewrite Forall_forall in Hall. exact (Hall _ Hin).
Qed.

(** ** How the process ends *)



(** X7: no run of the script prints the guidance of the dependency check:
    whatever the installation, the arguments and the world, neither
    [❌ Missing dependencies!] nor [Install with: pip install transformers
    torch] is among the lines the run adds to standard output. *)
Theorem guidance_never_printed env args w :
  exists added,
    stdout (snd (script env args w)) = (stdout w ++ added)%list /\
    forall line, line ∈ added ->
      line ≠ "❌ Missing dependencies!" /\
      line ≠ "Install with: pip install transformers torch".
Proof.
  assert (forall line, not_guidance line ->
            line ≠ "❌ Missing dependencies!" /\
            line ≠ "Install with: pip install transformers torch") as Hnot.
  { intros line Hline. unfold not_guidance, guidance in Hline. split.
    - intros ->. apply Hline, list_elem_of_here.
    - intros ->. apply Hline, list_elem_of_further, list_elem_of_here. }
  destruct (script_cases env args w)
    as [(e & w' & Hrun & _ & Hout & _)|(_ & _ & _ & Hrun)].
  - exists []. rewrite Hrun. simpl. rewrite app_nil_r.
    split; [exact Hout|]. by intros line Hin%elem_of_nil.
  - rewrite Hrun.
    destruct (frames_main_lines env args (after_imports w))
      as (added & Hout & Hall).
    exists added. split; [exact Hout|].
    intros line Hin. rewrite Forall_forall in Hall. by apply Hnot, Hall.
Qed.

(** ** One turn of the batch loop *)

Lemma exists_in_ext (f1 f2 : gmap string Node) p :
  f1 !! p = f2 !! p -> exists_in f1 p = exists_in f2 p.
Proof. unfold exists_in, lookup_path. by intros ->. Qed.

Lemma append_inj_r a b1 b2 : a +:+ b1 = a +:+ b2 -> b1 = b2.
Proof. induction a as [|c a IH]; simpl; [done|]. intros [= H]. by apply IH. Qed.

Lemma os_path_join_inj a b1 b2 :
  starts_with_sep b1 = false -> starts_with_sep b2 = false ->
  os_path_join a b1 = os_path_join a b2 -> b1 = b2.
Proof.
  unfold os_path_join. intros -> ->.
  destruct (negb (nonempty a) || ends_with_sep a).
  - apply append_inj_r.
  - intros H%append_inj_r. by injection H.
Qed.

Lemma os_path_join_longer a b :
  plain_name b = true ->
  (String.length a < String.length (os_path_join a b))%nat.
Proof.
  unfold plain_name. intros [Hne Hsep]%andb_true_iff.
  apply negb_true_iff in Hsep. apply nonempty_length in Hne.
  unfold os_path_join. rewrite Hsep.
  destruct (negb (nonempty a) || ends_with_sep a);
    rewrite !append_length; simpl; lia.
Qed.

Lemma plain_name_nonempty b : plain_name b = true -> nonempty b = true.
Proof. unfold plain_name. by intros [? _]%andb_true_iff. Qed.

Section BatchTurn.

Variable env : Env.

(** The turn for a pair, by what was found at its destination and how the
    conversion ended. *)
Lemma batch_item_cases output_dir model_name output_name w :
  let d := os_path_join output_dir output_name in
  (exists_in (fs w) d = true /\
   batch_item env output_dir (model_name, output_name) w
   = (Ok tt, emit (skip_line output_name) w)) \/
  (exists_in (fs w) d = false /\
   exists r1 w1,
     convert_cross_encoder_to_onnx env model_name d default_max_length
       default_opset_version w = (r1, w1) /\
     match r1 with
     | Ok _ =>
         batch_item env output_dir (model_name, output_name) w = (Ok tt, w1)
     | Raise e =>
         if isinstance_Exception e then
           batch_item env output_dir (model_name, output_name) w
           = (Ok tt, emit (failure_line model_name e) w1)
         else
           batch_item env output_dir (model_name, output_name) w
           = (Raise e, w1)
     end).
Proof.
  simpl.
  destruct (exists_in (fs w) (os_path_join output_dir output_name)) eqn:Hex.
  - left. split; [done|]. by apply batch_item_found.
  - right. split; [done|].
    destruct (convert_cross_encoder_to_onnx env model_name
                (os_path_join output_dir output_name) default_max_length
                default_opset_version w) as [[[]|e] w1] eqn:Hrun.
    + exists (Ok tt), w1. split; [done|]. by apply batch_item_converted.
    + exists (Raise e), w1. split; [done|].
      destruct (isinstance_Exception e) eqn:Hcls.
      * by apply batch_item_failed.
      * unfold batch_item, bind, os_path_exists. simpl. rewrite Hex.
        by apply try_except_uncaught.
Qed.

(** What a turn does to the file system, to the entries of the trace and to
    standard output, however it ends. *)
Lemma batch_item_effect output_dir item w :
  nonempty item.2 = true ->
  let w' := snd (batch_item env output_dir item w) in
  keeps_nodes w w' /\
  (forall p, p ≠ destination output_dir item -> fs w' !! p = fs w !! p) /\
  List.filter is_convert (calls w')
  = (List.filter is_convert (calls w)
     ++ if absent_in w output_dir item then [conversion_of output_dir item]
        else [])%list /\
  exists added, stdout w' = (stdout w ++ added)%list.
Proof.
  destruct item as [model_name output_name]. cbn [fst snd]. intros Hname.
  unfold absent_in, destination, conversion_of. cbn [fst snd].
  destruct (batch_item_cases output_dir model_name output_name w)
    as [[Hex Hitem]|(Hex & r1 & w1 & Hrun & Hitem)]; cbn zeta in *;
    rewrite Hex; cbn [negb].
  { rewrite Hitem. cbn [snd]. split; [by intros p n|].
    split; [done|]. split; [by rewrite app_nil_r|]. by exists [skip_line output_name]. }
  pose proof (convert_fs env model_name
                (os_path_join output_dir output_name) default_max_length
                default_opset_version w) as Hfs.
  pose proof (convert_conversions env model_name
                (os_path_join output_dir output_name) default_max_length
                default_opset_version w) as Hcalls.
  pose proof (frames_convert_lines env model_name
                (os_path_join output_dir output_name) default_max_length
                default_opset_version w) as (added & Hout & _).
  rewrite Hrun in Hfs, Hcalls, Hout. simpl in Hfs, Hcalls, Hout.
  pose proof (exists_in_false_literal (fs w) _
                (os_path_join_nonempty output_dir _ Hname) Hex) as Hnone.
  assert (keeps_nodes w w1 /\
          (forall p, p ≠ os_path_join output_dir output_name ->
                     fs w1 !! p = fs w !! p)) as [Hkeep Hframe].
  { destruct Hfs as [Hfs|(req & _ & Hfs)].
    - split; [intros p n; by rewrite Hfs|intros p _; by rewrite Hfs].
    - split.
      + intros p n Hp. rewrite Hfs. rewrite lookup_insert_ne; [done|].
        intros <-. congruence.
      + intros p Hp. rewrite Hfs. by rewrite lookup_insert_ne. }
  destruct r1 as [[]|e]; [|destruct (isinstance_Exception e)];
    rewrite Hitem; cbn [snd].
  - repeat split; try done. by exists added.
  - repeat split; try done. exists (added ++ [failure_line model_name e])%list.
    simpl. by rewrite Hout, app_assoc.
  - repeat split; try done. by exists added.
Qed.

End BatchTurn.

(** ** The batch loop as a whole *)

Lemma adds_upto_refl n w : adds_upto n w w.
Proof. intros p Hnone [x Hx]. congruence. Qed.

Lemma adds_upto_trans n w1 w2 w3 :
  adds_upto n w1 w2 -> adds_upto n w2 w3 -> adds_upto n w1 w3.
Proof.
  intros H1 H2 p Hnone Hsome.
  destruct (fs w2 !! p) as [x|] eqn:Hmid.
  - apply H1; [done|by exists x].
  - by apply H2.
Qed.

Lemma adds_upto_weaken n m w w' :
  (n <= m)%nat -> adds_upto n w w' -> adds_upto m w w'.
Proof. intros Hle H p Hnone Hsome. specialize (H p Hnone Hsome). lia. Qed.

Lemma frames_os_mkdir_upto p : frames (adds_upto (String.length p)) (os_mkdir p).
Proof.
  intros w. unfold os_mkdir.
  assert (adds_upto (String.length p) w (with_fs (<[p:=Dir]> (fs w)) w))
    as Hadd.
  { intros q Hnone [x Hx]. simpl in Hx.
    destruct (decide (p = q)) as [->|Hne]; [done|].
    rewrite lookup_insert_ne in Hx by done. congruence. }
  destruct (negb (nonempty p)); [apply adds_upto_refl|].
  destruct (exists_in (fs w) p); [apply adds_upto_refl|].
  destruct (negb (nonempty (os_path_dirname (rstrip_sep p)))); [done|].
  destruct (lookup_path (fs w) (os_path_dirname (rstrip_sep p))) as [[|c]|];
    simpl; [done|apply adds_upto_refl|apply adds_upto_refl].
Qed.

Lemma frames_makedirs_upto fuel name exist_ok :
  frames (adds_upto (String.length name)) (makedirs_fuel fuel name exist_ok).
Proof.
  revert name. induction fuel as [|fuel IH]; intros name.
  - apply frames_raise, adds_upto_refl.
  - simpl. pose proof (os_path_split_length name) as Hlen.
    destruct (os_path_split name) as [h0 t0]. simpl in Hlen.
    assert (forall head tail,
      (if negb (nonempty t0) then os_path_split h0 else (h0, t0))
      = (head, tail) ->
      (String.length head <= String.length name)%nat) as Hshort.
    { intros head tail Heq. destruct (negb (nonempty t0)).
      - pose proof (os_path_split_length h0) as Hlen'. rewrite Heq in Hlen'.
        simpl in Hlen'. lia.
      - injection Heq as -> ->. lia. }
    destruct (if negb (nonempty t0) then os_path_split h0 else (h0, t0))
      as [head tail].
    specialize (Hshort head tail eq_refl).
    apply frames_bind; [apply adds_upto_trans| |intros found].
    { intros w. apply adds_upto_refl. }
    apply frames_bind; [apply adds_upto_trans| |].
    + destruct (nonempty head && nonempty tail && negb found);
        [|apply frames_ret, adds_upto_refl].
      apply frames_bind;
        [apply adds_upto_trans| |intros _; apply frames_ret, adds_upto_refl].
      apply frames_try_except; [apply adds_upto_trans| |].
      * eapply frames_weaken; [|apply IH].
        intros v v'. by apply adds_upto_weaken.
      * intros e. apply frames_ret, adds_upto_refl.
    + intros [|]; [apply frames_ret, adds_upto_refl|].
      apply frames_try_except;
        [apply adds_upto_trans|apply frames_os_mkdir_upto|].
      intros e. apply frames_bind; [apply adds_upto_trans| |intros is_dir].
      { intros w. apply adds_upto_refl. }
      destruct (negb exist_ok || negb is_dir);
        [apply frames_raise|apply frames_ret]; apply adds_upto_refl.
Qed.

(** Making the output directory does not change what the destinations of
    plain names name. *)
Lemma os_makedirs_destination output_dir item w w0 :
  plain_name item.2 = true ->
  os_makedirs output_dir true w = (Ok tt, w0) ->
  fs w0 !! destination output_dir item = fs w !! destination output_dir item.
Proof.
  intros Hplain Hdir. unfold destination.
  pose proof (frames_os_makedirs output_dir true w) as (_ & _ & Hkeep & _).
  pose proof (frames_makedirs_upto (S (String.length output_dir)) output_dir
                true w) as Hupto.
  fold (os_makedirs output_dir true) in Hupto.
  rewrite Hdir in Hkeep, Hupto. simpl in Hkeep, Hupto.
  destruct (fs w !! os_path_join output_dir item.2) as [n|] eqn:Hbefore.
  - by apply Hkeep.
  - destruct (fs w0 !! os_path_join output_dir item.2) as [n|] eqn:Hafter;
      [|done].
    pose proof (Hupto _ Hbefore (ex_intro _ n Hafter)) as Hle.
    pose proof (os_path_join_longer output_dir item.2 Hplain). lia.
Qed.

Section BatchRun.

Variable env : Env.

Lemma batch_loop_keeps_nodes output_dir l w :
  Forall (fun item : string * string => nonempty item.2 = true) l ->
  keeps_nodes w (snd (batch_loop env output_dir l w)) /\
  exists added,
    stdout (snd (batch_loop env output_dir l w)) = (stdout w ++ added)%list.
Proof.
  intros Hall. revert w. induction Hall as [|item rest Hname _ IH]; intros w.
  - split; [apply keeps_nodes_refl|]. exists []. simpl. by rewrite app_nil_r.
  - rewrite batch_loop_cons. unfold bind.
    destruct (batch_item_effect env output_dir item w Hname)
      as (Hkeep & _ & _ & added & Hout).
    destruct (batch_item env output_dir item w) as [[[]|e] w1];
      simpl in Hkeep, Hout.
    + destruct (IH w1) as (Hkeep' & added' & Hout'). split.
      * by eapply keeps_nodes_trans.
      * exists (added ++ added')%list. by rewrite Hout', Hout, app_assoc.
    + simpl. split; [done|by exists added].
Qed.

(** With ordinary failures the loop enters the procedure for the pairs
    whose destination was absent when it started, in list order. *)
Lemma batch_loop_conversions output_dir l w :
  ordinary_failures env ->
  NoDup l.*2 ->
  Forall (fun item : string * string => plain_name item.2 = true) l ->
  List.filter is_convert (calls (snd (batch_loop env output_dir l w)))
  = (List.filter is_convert (calls w)
     ++ map (conversion_of output_dir)
          (List.filter (absent_in w output_dir) l))%list.
Proof.
  intros Hord Hnodup Hall. revert w Hnodup.
  induction Hall as [|item rest Hplain Hrest IH]; intros w Hnodup.
  - simpl. by rewrite app_nil_r.
  - rewrite fmap_cons in Hnodup. apply NoDup_cons in Hnodup as [Hfresh Hnodup].
    rewrite batch_loop_cons. unfold bind.
    destruct (batch_item_effect env output_dir item w
                (plain_name_nonempty _ Hplain))
      as (_ & Hframe & Hcalls & _).
    pose proof (batch_item_returns env output_dir item w Hord) as Hret.
    destruct (batch_item env output_dir item w) as [[[]|e] w1]; [|done].
    simpl in Hframe, Hcalls. rewrite (IH w1 Hnodup), Hcalls.
    rewrite <- app_assoc. f_equal.
    assert (List.filter (absent_in w1 output_dir) rest
            = List.filter (absent_in w output_dir) rest) as ->.
    { apply List.filter_ext_in. intros other Hin.
      unfold absent_in. f_equal. apply exists_in_ext, Hframe.
      unfold destination. intros Heq.
      apply os_path_join_inj in Heq.
      - apply Hfresh. rewrite <- Heq. apply list_elem_of_fmap.
        exists other. split; [done|]. by apply list_elem_of_In.
      - rewrite Forall_forall in Hrest.
        specialize (Hrest other (proj2 (list_elem_of_In _ _) Hin)).
        unfold plain_name in Hrest.
        apply andb_true_iff in Hrest as [_ Hrest].
        by apply negb_true_iff.
      - unfold plain_name in Hplain.
        apply andb_true_iff in Hplain as [_ Hplain].
        by apply negb_true_iff. }
    simpl. by destruct (absent_in w output_dir item).
Qed.

(** With ordinary failures, once the loop is over every pair has its
    destination in place or its failure line on standard output. *)
Lemma batch_loop_accounts output_dir l w :
  ordinary_failures env ->
  Forall (fun item : string * string => nonempty item.2 = true) l ->
  forall item, item ∈ l ->
    exists_in (fs (snd (batch_loop env output_dir l w)))
      (destination output_dir item) = true \/
    exists e,
      failure_line item.1 e ∈ stdout (snd (batch_loop env output_dir l w)).
Proof.
  intros Hord Hall. revert w.
  induction Hall as [|[model_name output_name] rest Hname Hrest IH];
    intros w item Hin; [by apply elem_of_nil in Hin|].
  rewrite batch_loop_cons. unfold bind.
  pose proof (batch_item_returns env output_dir (model_name, output_name) w
                Hord) as Hret.
  destruct (batch_item env output_dir (model_name, output_name) w)
    as [[[]|e] w1] eqn:Hitem; [|done].
  apply elem_of_cons in Hin as [->|Hin]; [|by apply IH].
  destruct (batch_loop_keeps_nodes output_dir rest w1 Hrest)
    as (Hkeep & added & Hout).
  unfold destination. cbn [fst snd] in *.
  destruct (batch_item_cases env output_dir model_name output_name w)
    as [[Hex Hskip]|(Hex & r1 & v1 & Hrun & Hcase)]; cbn zeta in *.
  - left. rewrite Hitem in Hskip. injection Hskip as ->.
    by eapply keeps_nodes_exists_in.
  - destruct r1 as [[]|e].
    + left. rewrite Hitem in Hcase. injection Hcase as ->.
      eapply keeps_nodes_exists_in; [exact Hkeep|].
      destruct (convert_ok env _ _ _ _ _ _ Hrun)
        as (model & inputs & u1 & u2 & ids & mask & types & Hfs).
      destruct Hfs as (_ & _ & _ & _ & _ & _ & ->).
      by apply exists_in_insert_file, os_path_join_nonempty.
    + destruct (isinstance_Exception e); rewrite Hitem in Hcase; [|done].
      injection Hcase as ->. right. exists e. rewrite Hout. simpl.
      apply elem_of_app. left. apply elem_of_app. right.
      apply list_elem_of_here.
Qed.

End BatchRun.

Lemma models_plain :
  Forall (fun item : string * string => plain_name item.2 = true) models.
Proof. by repeat constructor. Qed.

Lemma models_nonempty :
  Forall (fun item : string * string => nonempty item.2 = true) models.
Proof. by repeat constructor. Qed.

Lemma models_distinct : NoDup models.*2.
Proof.
  unfold models. simpl.
  repeat (apply NoDup_cons; split;
          [rewrite ?not_elem_of_cons; repeat split;
           first [discriminate|apply not_elem_of_nil]|]).
  apply NoDup_nil_2.
Qed.

(** ** What a run leaves on disk *)

(** X8: no run of the script removes anything: a path that named a node
    before the run names one after it.  In batch mode the node is the same
    (nothing that existed is overwritten); in single-model mode it is the
    same unless the path is the --output path. *)
Theorem script_keeps_nodes env args w p n :
  fs w !! p = Some n ->
  let w' := snd (script env args w) in
  is_Some (fs w' !! p) /\
  (arg_download_popular args = true -> fs w' !! p = Some n) /\
  (p ≠ arg_output args -> fs w' !! p = Some n).
Proof.
  intros Hp. simpl.
  destruct (script_cases env args w)
    as [(e & w' & Hrun & _ & _ & Hfs & _)|(_ & _ & _ & Hrun)]; rewrite Hrun.
  { simpl. rewrite Hfs, Hp. by eauto. }
  unfold main. destruct (arg_download_popular args).
  - assert (keeps_nodes (after_imports w)
              (snd (download_and_convert_popular_models env
                      (arg_output_dir args) (after_imports w)))) as Hkeep.
    { unfold download_and_convert_popular_models, bind.
      pose proof (frames_os_makedirs (arg_output_dir args) true
                    (after_imports w)) as Hdir%adds_dirs_keeps_nodes.
      destruct (os_makedirs (arg_output_dir args) true (after_imports w))
        as [[[]|e] w0]; simpl in Hdir; [|done].
      eapply keeps_nodes_trans; [exact Hdir|].
      apply (batch_loop_keeps_nodes env), models_nonempty. }
    specialize (Hkeep p n Hp). rewrite Hkeep. by eauto.
  - unfold bind.
    pose proof (frames_os_makedirs (os_path_dirname (arg_output args)) true
                  (after_imports w)) as Hdir%adds_dirs_keeps_nodes.
    destruct (os_makedirs (os_path_dirname (arg_output args)) true
                (after_imports w)) as [[[]|e] w0]; simpl in Hdir.
    2:{ simpl. rewrite (Hdir p n Hp). by eauto. }
    specialize (Hdir p n Hp).
    destruct (convert_fs env (arg_model args) (arg_output args)
                (arg_max_length args) default_opset_version w0)
      as [Hfs|(req & _ & Hfs)]; rewrite Hfs.
    + rewrite Hdir. by eauto.
    + split; [|split; [done|]].
      * destruct (decide (arg_output args = p)) as [->|Hne].
        -- rewrite lookup_insert_eq. by eauto.
        -- rewrite lookup_insert_ne by done. by eauto.
      * intros Hne. rewrite lookup_insert_ne; [done|congruence].
Qed.

Lemma script_keeps_nodes_witness :
  (* batch mode keeps the file that was there *)
  fs (snd (script sample_env batch_args second_in_place))
    !! "models/ms-marco-MiniLM-L12-v2.onnx" = Some (File (Blob "kept")) /\
  (* single-model mode keeps it too, writing elsewhere *)
  fs (snd (script sample_env default_args second_in_place))
    !! "models/ms-marco-MiniLM-L12-v2.onnx" = Some (File (Blob "kept")).
Proof.
  split.
  - destruct (script_keeps_nodes sample_env batch_args second_in_place
                "models/ms-marco-MiniLM-L12-v2.onnx" (File (Blob "kept"))
                eq_refl) as (_ & Hbatch & _).
    by apply Hbatch.
  - destruct (script_keeps_nodes sample_env default_args second_in_place
                "models/ms-marco-MiniLM-L12-v2.onnx" (File (Blob "kept"))
                eq_refl) as (_ & _ & Hsingle).
    by apply Hsingle.
Defined.

(** ** Failures in batch mode and the next run *)

(** X9: a pair whose export succeeded but whose verification raised is
    reported as failed, yet its graph stays at the destination: in any later
    world that still has the nodes of the one the turn left, whatever the
    installation is then, the turn for that pair finds the file and skips
    the pair, so the graph is never verified. *)
Theorem batch_failed_check_is_skipped env output_dir model_name output_name
    w model inputs w1 w2 e w3 :
  nonempty output_name = true ->
  exists_in (fs w) (os_path_join output_dir output_name) = false ->
  load_stage env model_name 512
    (note (CallConvert model_name (os_path_join output_dir output_name)
             512 14) w)
    = (Ok (model, inputs), w1) ->
  export_stage env model inputs (os_path_join output_dir output_name) 512 14 w1
    = (Ok tt, w2) ->
  verify_stage env inputs (os_path_join output_dir output_name) w2
    = (Raise e, w3) ->
  isinstance_Exception e = true ->
  let left_behind :=
    emit ("❌ Failed to convert " +:+ model_name +:+ ": " +:+ exn_msg e) w3 in
  batch_item env output_dir (model_name, output_name) w = (Ok tt, left_behind) /\
  forall env' v,
    keeps_nodes left_behind v ->
    batch_item env' output_dir (model_name, output_name) v
    = (Ok tt, emit ("⏭️ " +:+ output_name +:+ " already exists, skipping...") v).
Proof.
  intros Hname Hex Hload Hexp Hver Hcls left_behind.
  assert (convert_cross_encoder_to_onnx env model_name
            (os_path_join output_dir output_name) default_max_length
            default_opset_version w = (Raise e, w3)) as Hrun.
  { rewrite convert_stages.
    change default_max_length with 512. change default_opset_version with 14.
    by rewrite Hload, Hexp. }
  split; [by apply batch_item_failed|].
  intros env' v Hkeep. apply batch_item_found.
  eapply keeps_nodes_exists_in; [exact Hkeep|].
  subst left_behind. simpl.
  pose proof (frames_load_stage env model_name 512
                (note (CallConvert model_name
                         (os_path_join output_dir output_name) 512 14) w))
    as Hfs1.
  rewrite Hload in Hfs1.
  apply export_stage_ok in Hexp as (ids & mask & types & _ & _ & _ & _ & Hfs2 & _).
  pose proof (frames_verify_stage env inputs
                (os_path_join output_dir output_name) w2) as Hfs3.
  rewrite Hver in Hfs3. unfold keeps_fs in *. simpl in *.
  rewrite Hfs3, Hfs2.
  by apply exists_in_insert_file, os_path_join_nonempty.
Qed.

Lemma batch_failed_check_is_skipped_witness :
  let first_run := script env_check_fails batch_args empty_world in
  let second_run := script sample_env batch_args (snd first_run) in
  (* the first run reports three failures *)
  List.filter is_convert (calls (snd first_run))
  = map (conversion_of "models") models /\
  "❌ Failed to convert cross-encoder/ms-marco-MiniLM-L6-v2: "
    +:+ exn_msg invalid_graph ∈ stdout (snd first_run) /\
  (* with a working installation, the second run converts nothing *)
  List.filter is_convert (calls (snd second_run))
  = List.filter is_convert (calls (snd first_run)).
Proof.
  simpl. split; [by vm_compute|]. split.
  - vm_compute.
    repeat first [apply list_elem_of_here|apply list_elem_of_further].
  - pose (name := "cross-encoder/ms-marco-MiniLM-L6-v2").
    pose (d := "models/ms-marco-MiniLM-L6-v2.onnx").
    pose (w := snd (os_makedirs "models" true (after_imports empty_world))).
    pose (w1 := snd (load_stage env_check_fails name 512
                       (note (CallConvert name d 512 14) w))).
    pose (model := mkModel name 1 false).
    pose (w2 := snd (export_stage env_check_fails model (sample_encoding 512)
                       d 512 14 w1)).
    pose (w3 := snd (verify_stage env_check_fails (sample_encoding 512) d w2)).
    destruct (batch_failed_check_is_skipped env_check_fails "models" name
                "ms-marco-MiniLM-L6-v2.onnx" w model (sample_encoding 512)
                w1 w2 invalid_graph w3)
      as [_ Hskip]; [by vm_compute..|].
    by vm_compute.
Defined.

(** X10: a pair whose conversion raised an ordinary error while loading or
    exporting is reported as failed and nothing is written: the file system
    is the one before the turn, the destination still names nothing, and the
    turn for that pair in the world left behind enters the conversion
    again, whatever the installation is then. *)
Theorem batch_failed_before_write_is_retried env output_dir model_name
    output_name w e w' :
  nonempty output_name = true ->
  exists_in (fs w) (os_path_join output_dir output_name) = false ->
  let w0 :=
    note (CallConvert model_name (os_path_join output_dir output_name)
            512 14) w in
  (load_stage env model_name 512 w0 = (Raise e, w') \/
   exists model inputs w1,
     load_stage env model_name 512 w0 = (Ok (model, inputs), w1) /\
     export_stage env model inputs (os_path_join output_dir output_name)
       512 14 w1 = (Raise e, w')) ->
  isinstance_Exception e = true ->
  let left_behind :=
    emit ("❌ Failed to convert " +:+ model_name +:+ ": " +:+ exn_msg e) w' in
  batch_item env output_dir (model_name, output_name) w = (Ok tt, left_behind) /\
  fs left_behind = fs w /\
  forall env',
    List.filter is_convert
      (calls (snd (batch_item env' output_dir (model_name, output_name)
                     left_behind)))
    = (List.filter is_convert (calls left_behind)
       ++ [CallConvert model_name (os_path_join output_dir output_name)
             512 14])%list.
Proof.
  intros Hname Hex w0 Hstage Hcls left_behind.
  assert (convert_cross_encoder_to_onnx env model_name
            (os_path_join output_dir output_name) default_max_length
            default_opset_version w = (Raise e, w') /\ fs w' = fs w)
    as [Hrun Hfs].
  { rewrite convert_stages.
    change default_max_length with 512. change default_opset_version with 14.
    fold w0. pose proof (frames_load_stage env model_name 512 w0) as Hfs1.
    destruct Hstage as [Hload|(model & inputs & w1 & Hload & Hexp)];
      rewrite Hload in *; simpl in Hfs1.
    - by split.
    - rewrite Hexp. split; [done|].
      apply export_stage_raise in Hexp. by rewrite Hexp, Hfs1. }
  split; [by apply batch_item_failed|]. split; [exact Hfs|].
  intros env'.
  destruct (batch_item_effect env' output_dir (model_name, output_name)
              left_behind Hname) as (_ & _ & Hcalls & _).
  rewrite Hcalls. unfold absent_in, destination, conversion_of.
  cbn [fst snd]. subst left_behind. simpl. by rewrite Hfs, Hex.
Qed.

Lemma batch_failed_before_write_is_retried_witness :
  let first_run := script env_second_model_missing batch_args empty_world in
  let second_run := script sample_env batch_args (snd first_run) in
  fs (snd first_run) !! "models/ms-marco-MiniLM-L12-v2.onnx" = None /\
  (* the second run converts the pair that failed, and only that one *)
  List.filter is_convert (calls (snd second_run))
  = (List.filter is_convert (calls (snd first_run))
     ++ [CallConvert "cross-encoder/ms-marco-MiniLM-L12-v2"
           "models/ms-marco-MiniLM-L12-v2.onnx" 512 14])%list /\
  is_Some (fs (snd second_run) !! "models/ms-marco-MiniLM-L12-v2.onnx").
Proof.
  simpl.
  pose (name := "cross-encoder/ms-marco-MiniLM-L12-v2").
  pose (w := snd (batch_item env_second_model_missing "models"
                    ("cross-encoder/ms-marco-MiniLM-L6-v2",
                     "ms-marco-MiniLM-L6-v2.onnx")
                    (snd (os_makedirs "models" true
                            (after_imports empty_world))))).
  pose (w0 := note (CallConvert name "models/ms-marco-MiniLM-L12-v2.onnx"
                      512 14) w).
  destruct (batch_failed_before_write_is_retried env_second_model_missing
              "models" name "ms-marco-MiniLM-L12-v2.onnx" w hub_unreachable
              (snd (load_stage env_second_model_missing name 512 w0)))
    as (_ & _ & _); [by vm_compute|by vm_compute|left; by vm_compute|done|].
  split; [by vm_compute|]. split; [by vm_compute|]. vm_compute. eauto.
Defined.

(** X11: with ordinary failures, a batch run that could make its directory
    accounts for every model of the list: when it is over, the destination
    of the pair exists, or the line reporting the failure of that model is
    on standard output. *)
Theorem batch_file_or_failure_line env output_dir w w0 :
  ordinary_failures env ->
  os_makedirs output_dir true w = (Ok tt, w0) ->
  let w' := snd (download_and_convert_popular_models env output_dir w) in
  forall model_name output_name,
    (model_name, output_name) ∈ models ->
    exists_in (fs w') (os_path_join output_dir output_name) = true \/
    exists e,
      "❌ Failed to convert " +:+ model_name +:+ ": " +:+ exn_msg e
      ∈ stdout w'.
Proof.
  intros Hord Hdir. simpl. intros model_name output_name Hin.
  unfold download_and_convert_popular_models.
  rewrite (bind_ok _ _ _ _ _ Hdir).
  exact (batch_loop_accounts env output_dir models w0 Hord models_nonempty
           (model_name, output_name) Hin).
Qed.

Lemma batch_file_or_failure_line_witness :
  let w' := snd (download_and_convert_popular_models env_second_model_missing
                   "models" empty_world) in
  exists_in (fs w') "models/ms-marco-MiniLM-L6-v2.onnx" = true /\
  exists_in (fs w') "models/ms-marco-MiniLM-L12-v2.onnx" = false /\
  exists e,
    "❌ Failed to convert cross-encoder/ms-marco-MiniLM-L12-v2: " +:+ exn_msg e
    ∈ stdout w'.
Proof.
  simpl. split; [by vm_compute|]. split; [by vm_compute|].
  destruct (batch_file_or_failure_line env_second_model_missing "models"
              empty_world (snd (os_makedirs "models" true empty_world))
              (failing_tokenizer_loader_ordinary
                 "cross-encoder/ms-marco-MiniLM-L12-v2" hub_unreachable
                 sample_env eq_refl sample_env_ordinary)
              eq_refl
              "cross-encoder/ms-marco-MiniLM-L12-v2"
              "ms-marco-MiniLM-L12-v2.onnx")
    as [Hexists|Hline].
  - unfold models. apply list_elem_of_further, list_elem_of_here.
  - revert Hexists. by vm_compute.
  - exact Hline.
Defined.

(** X12: with ordinary failures, a batch run that could make its directory
    enters the conversion procedure exactly for the pairs of the list whose
    destination named nothing when the run started, once each, in list
    order, with the pair's model, its destination and the defaults. *)
Theorem batch_converts_absent_in_order env output_dir w w0 :
  ordinary_failures env ->
  os_makedirs output_dir true w = (Ok tt, w0) ->
  List.filter is_convert
    (calls (snd (download_and_convert_popular_models env output_dir w)))
  = (List.filter is_convert (calls w)
     ++ map (fun item : string * string =>
               CallConvert item.1 (os_path_join output_dir item.2) 512 14)
          (List.filter
             (fun item : string * string =>
                negb (exists_in (fs w) (os_path_join output_dir item.2)))
             models))%list.
Proof.
  intros Hord Hdir. unfold download_and_convert_popular_models.
  rewrite (bind_ok _ _ _ _ _ Hdir).
  rewrite (batch_loop_conversions env output_dir models w0 Hord
             models_distinct models_plain).
  pose proof (frames_os_makedirs output_dir true w) as (_ & Hcalls & _).
  rewrite Hdir in Hcalls. simpl in Hcalls. rewrite Hcalls. f_equal.
  assert (List.filter (absent_in w0 output_dir) models
          = List.filter (absent_in w output_dir) models) as ->; [|done].
  apply List.filter_ext_in. intros item Hin. unfold absent_in. f_equal.
  apply exists_in_ext, os_makedirs_destination; [|done].
  pose proof models_plain as Hplain. rewrite Forall_forall in Hplain.
  by apply Hplain, list_elem_of_In.
Qed.

Lemma batch_converts_absent_in_order_witness :
  List.filter is_convert
    (calls (snd (download_and_convert_popular_models sample_env "models"
                   second_in_place)))
  = [ CallConvert "cross-encoder/ms-marco-MiniLM-L6-v2"
        "models/ms-marco-MiniLM-L6-v2.onnx" 512 14;
      CallConvert "cross-encoder/ms-marco-TinyBERT-L-2-v2"
        "models/ms-marco-TinyBERT-L2-v2.onnx" 512 14 ].
Proof.
  rewrite (batch_converts_absent_in_order sample_env "models" second_in_place
             (snd (os_makedirs "models" true second_in_place))
             sample_env_ordinary); [|by vm_compute].
  by vm_compute.
Defined.
